(** * kube-scheduler-simulator: resource replication (syncer), recorder and replayer

  A shallow embedding of the syncer package (its [Service], the three
  informer handlers, the create/update/delete paths and the mandatory
  mutating and filtering functions) together with models of the
  recorder and the replayer, and the properties stated about them. *)

From Stdlib Require Import ZArith String Ascii List Bool Lia.
From stdpp Require Import base gmap strings list fin_maps.

Set Warnings "-register-all".
Open Scope string_scope.
Open Scope list_scope.

(** ** k8s.io/apimachinery/pkg/runtime/schema *)

Module schema.

Module GroupKind.
Record t := mk { Group : string; Kind : string }.
End GroupKind.

Module GroupVersion.
Record t := mk { Group : string; Version : string }.
End GroupVersion.

Module GroupVersionKind.
Record t := mk { Group : string; Version : string; Kind : string }.
Definition GroupKind (gvk : t) : GroupKind.t :=
  GroupKind.mk (Group gvk) (Kind gvk).
End GroupVersionKind.

Module GroupVersionResource.
Record t := mk { Group : string; Version : string; Resource : string }.
Definition to_tuple (gvr : t) : string * string * string :=
  (Group gvr, Version gvr, Resource gvr).
Definition of_tuple (p : string * string * string) : t :=
  let '(g, v, r) := p in mk g v r.
End GroupVersionResource.

(** strings.Count(gv, "/") *)
Fixpoint count_slash (s : string) : nat :=
  match s with
  | EmptyString => 0
  | String c rest =>
      (if Ascii.eqb c "/"%char then 1 else 0) + count_slash rest
  end.

(** gv[:i] and gv[i+1:] for i the index of the first "/" *)
Fixpoint cut_slash (s : string) : string * string :=
  match s with
  | EmptyString => (EmptyString, EmptyString)
  | String c rest =>
      if Ascii.eqb c "/"%char then (EmptyString, rest)
      else let '(a, b) := cut_slash rest in (String c a, b)
  end.

(** ParseGroupVersion: [None] stands for the "unexpected GroupVersion
    string" error. *)
Definition ParseGroupVersion (gv : string) : option GroupVersion.t :=
  if String.eqb gv "" || String.eqb gv "/" then Some (GroupVersion.mk "" "")
  else match count_slash gv with
       | 0 => Some (GroupVersion.mk "" gv)
       | 1 => let '(g, v) := cut_slash gv in Some (GroupVersion.mk g v)
       | _ => None
       end.

End schema.

Abbreviation GVR := schema.GroupVersionResource.t.
Abbreviation GVK := schema.GroupVersionKind.t.
Abbreviation mkGVR := schema.GroupVersionResource.mk.
Abbreviation mkGVK := schema.GroupVersionKind.mk.

#[global] Instance GVR_eq_dec : EqDecision GVR.
Proof. solve_decision. Defined.

#[global] Instance GVR_countable : Countable GVR.
Proof.
  apply (inj_countable' schema.GroupVersionResource.to_tuple
                        schema.GroupVersionResource.of_tuple).
  intros [g v r]. reflexivity.
Defined.

(** ** Errors

  The Go [error] values that reach the code under study.  API status
  errors carry a reason; [xerrors.Errorf] with the %w verb wraps an
  error and keeps it reachable through [Unwrap]. *)

Inductive StatusReason :=
| StatusReasonNotFound
| StatusReasonAlreadyExists
| StatusReasonOther (reason : string).

Inductive error :=
| StatusError (reason : StatusReason) (message : string)
| NoKindMatchError (gk : schema.GroupKind.t) (version : string)
| ErrorString (message : string)
| Wrapped (message : string) (err : error).

(** xerrors.Errorf(message + ": %w", err) *)
Definition Errorf (message : string) (err : error) : error :=
  Wrapped message err.

Module errors.

(** apierrors.ReasonForError looks for an API status anywhere in the
    chain of wrapped errors. *)
Fixpoint ReasonForError (err : error) : option StatusReason :=
  match err with
  | StatusError reason _ => Some reason
  | Wrapped _ inner => ReasonForError inner
  | _ => None
  end.

Definition IsNotFound (err : error) : bool :=
  match ReasonForError err with
  | Some StatusReasonNotFound => true
  | _ => false
  end.

Definition IsAlreadyExists (err : error) : bool :=
  match ReasonForError err with
  | Some StatusReasonAlreadyExists => true
  | _ => false
  end.

Definition NewNotFound (name : string) : error :=
  StatusError StatusReasonNotFound name.

Definition NewAlreadyExists (name : string) : error :=
  StatusError StatusReasonAlreadyExists name.

End errors.

(** What a Go call can do: return a value, return an error, or panic. *)
Inductive result (A : Type) :=
| Ok (a : A)
| Err (err : error)
| Panic (msg : string).
Arguments Ok {A} a.
Arguments Err {A} err.
Arguments Panic {A} msg.

(** [return err] for an [err] that may be nil. *)
Definition return_error (err : option error) : result unit :=
  match err with
  | None => Ok tt
  | Some e => Err e
  end.

Definition nil_pointer_dereference : string :=
  "runtime error: invalid memory address or nil pointer dereference".

(** ** Unstructured content

    [interface{}] values as they occur in [Unstructured.Object]: JSON
    scalars, slices and string-keyed maps.  Floating point numbers do
    not occur in the fields the code looks at and are left out.  The
    module [unstructured] follows the accessors of apimachinery's
    package of that name. *)

Inductive value :=
| VNull
| VBool (b : bool)
| VInt (n : Z)
| VString (s : string)
| VList (l : list value)
| VMap (m : gmap string value).

Module unstructured.

Record Unstructured := mk { Object : gmap string value }.

(** NestedFieldNoCopy: [Some None] is "not found", [None] is the
    "accessor error" raised when the path walks through a value that is
    not a map. *)
Fixpoint NestedFieldNoCopy (obj : gmap string value) (fields : list string)
  : option (option value) :=
  match fields with
  | [] => Some (Some (VMap obj))
  | [field] => Some (obj !! field)
  | field :: rest =>
      match obj !! field with
      | None => Some None
      | Some VNull => Some None
      | Some (VMap m) => NestedFieldNoCopy m rest
      | Some _ => None
      end
  end.

(** getNestedString: the empty string unless the path leads to a string. *)
Definition getNestedString (obj : gmap string value) (fields : list string)
  : string :=
  match NestedFieldNoCopy obj fields with
  | Some (Some (VString s)) => s
  | _ => ""
  end.

(** NestedInt64 followed by the "not found or error gives 0" of the getters. *)
Definition getNestedInt64 (obj : gmap string value) (fields : list string)
  : Z :=
  match NestedFieldNoCopy obj fields with
  | Some (Some (VInt n)) => n
  | _ => 0%Z
  end.

(** SetNestedField: intermediate maps are created when absent; when the
    path walks through a value that is not a map the call fails and
    [Unstructured.setNestedField] drops that failure, which leaves the
    content as it was. *)
Fixpoint SetNestedField (obj : gmap string value) (v : value)
  (fields : list string) : option (gmap string value) :=
  match fields with
  | [] => Some obj
  | [field] => Some (<[field := v]> obj)
  | field :: rest =>
      match obj !! field with
      | None =>
          match SetNestedField ∅ v rest with
          | Some m' => Some (<[field := VMap m']> obj)
          | None => None
          end
      | Some (VMap m) =>
          match SetNestedField m v rest with
          | Some m' => Some (<[field := VMap m']> obj)
          | None => None
          end
      | Some _ => None
      end
  end.

Definition setNestedField (u : Unstructured) (v : value)
  (fields : list string) : Unstructured :=
  match SetNestedField (Object u) v fields with
  | Some obj => mk obj
  | None => u
  end.

(** RemoveNestedField: nothing happens unless every step but the last
    leads to a map. *)
Fixpoint RemoveNestedField (obj : gmap string value) (fields : list string)
  : gmap string value :=
  match fields with
  | [] => obj
  | [field] => delete field obj
  | field :: rest =>
      match obj !! field with
      | Some (VMap m) => <[field := VMap (RemoveNestedField m rest)]> obj
      | _ => obj
      end
  end.

Definition UnstructuredContent (u : Unstructured) : gmap string value :=
  Object u.

Definition GetAPIVersion (u : Unstructured) : string :=
  getNestedString (Object u) ["apiVersion"].

Definition GetKind (u : Unstructured) : string :=
  getNestedString (Object u) ["kind"].

Definition GetNamespace (u : Unstructured) : string :=
  getNestedString (Object u) ["metadata"; "namespace"].

Definition GetName (u : Unstructured) : string :=
  getNestedString (Object u) ["metadata"; "name"].

Definition GetUID (u : Unstructured) : string :=
  getNestedString (Object u) ["metadata"; "uid"].

Definition SetUID (u : Unstructured) (uid : string) : Unstructured :=
  setNestedField u (VString uid) ["metadata"; "uid"].

Definition GetResourceVersion (u : Unstructured) : string :=
  getNestedString (Object u) ["metadata"; "resourceVersion"].

Definition SetResourceVersion (u : Unstructured) (resourceVersion : string)
  : Unstructured :=
  setNestedField u (VString resourceVersion) ["metadata"; "resourceVersion"].

Definition GetGeneration (u : Unstructured) : Z :=
  getNestedInt64 (Object u) ["metadata"; "generation"].

Definition SetGeneration (u : Unstructured) (generation : Z) : Unstructured :=
  if (generation =? 0)%Z
  then mk (RemoveNestedField (Object u) ["metadata"; "generation"])
  else setNestedField u (VInt generation) ["metadata"; "generation"].

(** GroupVersionKind: the zero value when apiVersion does not parse. *)
Definition GroupVersionKind (u : Unstructured) : GVK :=
  match schema.ParseGroupVersion (GetAPIVersion u) with
  | None => mkGVK "" "" ""
  | Some gv =>
      mkGVK (schema.GroupVersion.Group gv) (schema.GroupVersion.Version gv)
            (GetKind u)
  end.

End unstructured.

Abbreviation Unstructured := unstructured.Unstructured.

(** ** k8s.io/api/core/v1: the typed views the syncer decodes into

    Each struct keeps the fields the code reads or writes; what else the
    Go struct holds travels in [Remainder]. *)

Module v1.

Definition VolumeBound : string := "Bound".

Module ObjectMeta.
Record t := mk { Name : string; Namespace : string }.
End ObjectMeta.

Module ObjectReference.
Record t := mk { Namespace : string; Name : string; UID : string;
                 Remainder : gmap string value }.
Definition with_UID (uid : string) (ref : t) : t :=
  mk (Namespace ref) (Name ref) uid (Remainder ref).
End ObjectReference.

Module PersistentVolumeSpec.
(** [ClaimRef] is a pointer in Go: [None] is nil. *)
Record t := mk { ClaimRef : option ObjectReference.t;
                 Remainder : gmap string value }.
End PersistentVolumeSpec.

Module PersistentVolumeStatus.
Record t := mk { Phase : string; Remainder : gmap string value }.
End PersistentVolumeStatus.

Module PersistentVolume.
Record t := mk { ObjectMeta : ObjectMeta.t;
                 Spec : PersistentVolumeSpec.t;
                 Status : PersistentVolumeStatus.t;
                 Remainder : gmap string value }.
End PersistentVolume.

Module PodSpec.
Record t := mk { NodeName : string; ServiceAccountName : string;
                 Remainder : gmap string value }.
Definition with_ServiceAccountName (name : string) (spec : t) : t :=
  mk (NodeName spec) name (Remainder spec).
End PodSpec.

Module Pod.
Record t := mk { ObjectMeta : ObjectMeta.t;
                 Spec : PodSpec.t;
                 Remainder : gmap string value }.
End Pod.

End v1.

(** ** runtime.UnstructuredConverter

    [runtime.DefaultUnstructuredConverter] is an interface value of the
    apimachinery library; the syncer uses it at two target types. *)

Class UnstructuredConverter := {
  FromUnstructured_Pod : gmap string value -> error + v1.Pod.t;
  ToUnstructured_Pod : v1.Pod.t -> gmap string value * option error;
  FromUnstructured_PersistentVolume :
    gmap string value -> error + v1.PersistentVolume.t;
  ToUnstructured_PersistentVolume :
    v1.PersistentVolume.t -> gmap string value * option error;
}.

(** ** klog *)

Module klog.

Inductive Entry :=
| Info (message : string) (err : option error)
| InfoS (message : string) (keysAndValues : list (string * string))
| Error (message : string)
| ErrorS (err : error) (message : string).

(** Entries written at error severity. *)
Definition is_error (e : Entry) : bool :=
  match e with
  | Error _ | ErrorS _ _ => true
  | Info _ _ | InfoS _ _ => false
  end.

End klog.

(** ** dynamic.Interface

    [client.Resource(gvr).Namespace(ns)] followed by one of the four
    verbs the code uses.  [Get] reads; the other three may change the
    store behind the client. *)

Module dynamic.

Class Interface (C : Type) := {
  Get : C -> GVR -> string -> string -> error + Unstructured;
  Create : C -> GVR -> string -> Unstructured -> (error + Unstructured) * C;
  Update : C -> GVR -> string -> Unstructured -> (error + Unstructured) * C;
  Delete : C -> GVR -> string -> string -> option error * C;
}.

End dynamic.

(** ** meta.RESTMapper: the resource a group, kind and version map to. *)

Module meta.

Record RESTMapper := mk {
  RESTMapping : schema.GroupKind.t -> string -> error + GVR;
}.

End meta.

(** The write requests a client receives, as client-go's testing [Fake]
    keeps them in [Actions()]. *)
Inductive Action :=
| CreateAction (gvr : GVR) (namespace : string) (obj : Unstructured)
| UpdateAction (gvr : GVR) (namespace : string) (obj : Unstructured)
| DeleteAction (gvr : GVR) (namespace : string) (name : string).

Module Recording.
Record t (C : Type) := mk { client : C; actions : list Action }.
Arguments mk {C} client actions.
Arguments client {C} _.
Arguments actions {C} _.
End Recording.

#[global] Instance Recording_Interface {C} `{dynamic.Interface C}
  : dynamic.Interface (Recording.t C) := {
  dynamic.Get r gvr ns name := dynamic.Get (Recording.client r) gvr ns name;
  dynamic.Create r gvr ns obj :=
    let '(res, c) := dynamic.Create (Recording.client r) gvr ns obj in
    (res, Recording.mk c (Recording.actions r ++ [CreateAction gvr ns obj]));
  dynamic.Update r gvr ns obj :=
    let '(res, c) := dynamic.Update (Recording.client r) gvr ns obj in
    (res, Recording.mk c (Recording.actions r ++ [UpdateAction gvr ns obj]));
  dynamic.Delete r gvr ns name :=
    let '(res, c) := dynamic.Delete (Recording.client r) gvr ns name in
    (res, Recording.mk c (Recording.actions r ++ [DeleteAction gvr ns name]));
}.

(** An in-memory store in the manner of client-go's fake dynamic client:
    objects keyed by resource, namespace and name. *)
Module ObjectTracker.

Definition t := gmap (GVR * string * string) Unstructured.

Definition get (tr : t) (gvr : GVR) (ns name : string)
  : error + Unstructured :=
  match tr !! (gvr, ns, name) with
  | Some obj => inr obj
  | None => inl (errors.NewNotFound name)
  end.

Definition create (tr : t) (gvr : GVR) (ns : string) (obj : Unstructured)
  : (error + Unstructured) * t :=
  let name := unstructured.GetName obj in
  match tr !! (gvr, ns, name) with
  | Some _ => (inl (errors.NewAlreadyExists name), tr)
  | None => (inr obj, <[(gvr, ns, name) := obj]> tr)
  end.

Definition update (tr : t) (gvr : GVR) (ns : string) (obj : Unstructured)
  : (error + Unstructured) * t :=
  let name := unstructured.GetName obj in
  match tr !! (gvr, ns, name) with
  | Some _ => (inr obj, <[(gvr, ns, name) := obj]> tr)
  | None => (inl (errors.NewNotFound name), tr)
  end.

Definition delete (tr : t) (gvr : GVR) (ns name : string)
  : option error * t :=
  match tr !! (gvr, ns, name) with
  | Some _ => (None, base.delete (gvr, ns, name) tr)
  | None => (Some (errors.NewNotFound name), tr)
  end.

End ObjectTracker.

#[global] Instance ObjectTracker_Interface
  : dynamic.Interface ObjectTracker.t := {
  dynamic.Get := ObjectTracker.get;
  dynamic.Create := ObjectTracker.create;
  dynamic.Update := ObjectTracker.update;
  dynamic.Delete := ObjectTracker.delete;
}.

(** ** Package syncer *)

Module syncer.

(** MandatoryGVRs: the resources synced by default, in sync order. *)
Definition MandatoryGVRs : list GVR :=
  [ mkGVR "" "v1" "namespaces";
    mkGVR "scheduling.k8s.io" "v1" "priorityclasses";
    mkGVR "storage.k8s.io" "v1" "storageclasses";
    mkGVR "" "v1" "persistentvolumeclaims";
    mkGVR "" "v1" "nodes";
    mkGVR "" "v1" "persistentvolumes";
    mkGVR "" "v1" "pods" ].

(** Event is a type of events that occur in the source cluster. *)
Inductive Event := Add | Update.

Definition Event_eqb (a b : Event) : bool :=
  match a, b with
  | Add, Add | Update, Update => true
  | _, _ => false
  end.

(** What an informer hands to a handler is an [interface{}]; the
    handlers assert that it is a [*unstructured.Unstructured]. *)
Inductive interface :=
| UnstructuredPtr (u : Unstructured)
| OtherValue (description : string).

(** How a handler ends: it returns, or a panic escapes from it. *)
Inductive completion :=
| Returned
| Panicked (msg : string).

Section Syncer.

Context {S D : Type}.
Context `{!dynamic.Interface S} `{!dynamic.Interface D}.
Context `{!UnstructuredConverter}.

Record Clients := mkClients {
  (* the dynamic client for the source cluster, which the resource is
     supposed to be copied from *)
  SrcDynamicClient : S;
  (* the dynamic client for the destination cluster, which the resource
     is supposed to be copied to *)
  DestDynamicClient : D;
  RestMapper : meta.RESTMapper;
}.

(** FilteringFunction is a function that filters a resource.  If it
    returns false, the resource will not be imported.  The function sees
    the clients and may write to the log. *)
Definition FilteringFunction : Type :=
  Unstructured -> Clients -> Event -> list klog.Entry * (bool * option error).

(** MutatingFunction is a function that mutates a resource before
    importing it. *)
Definition MutatingFunction : Type :=
  Unstructured -> Clients -> Event -> result Unstructured.

Definition persistentvolumeclaims : GVR :=
  mkGVR "" "v1" "persistentvolumeclaims".

(** The body of [if pv.Status.Phase == v1.VolumeBound] in mutatePV. *)
Definition mutatePV_bound (clients : Clients) (pv : v1.PersistentVolume.t)
  : result v1.PersistentVolume.t :=
  let spec := v1.PersistentVolume.Spec pv in
  match v1.PersistentVolumeSpec.ClaimRef spec with
  | None => Panic nil_pointer_dereference
  | Some claimRef =>
      match dynamic.Get (SrcDynamicClient clients) persistentvolumeclaims
                        (v1.ObjectReference.Namespace claimRef)
                        (v1.ObjectReference.Name claimRef) with
      | inl err => Err err
      | inr pvc =>
          let claimRef' :=
            v1.ObjectReference.with_UID (unstructured.GetUID pvc) claimRef in
          Ok (v1.PersistentVolume.mk
                (v1.PersistentVolume.ObjectMeta pv)
                (v1.PersistentVolumeSpec.mk
                   (Some claimRef') (v1.PersistentVolumeSpec.Remainder spec))
                (v1.PersistentVolume.Status pv)
                (v1.PersistentVolume.Remainder pv))
      end
  end.

Definition mutatePV (resource : Unstructured) (clients : Clients) (_ : Event)
  : result Unstructured :=
  match FromUnstructured_PersistentVolume
          (unstructured.UnstructuredContent resource) with
  | inl err => Err err
  | inr pv =>
      let after_if :=
        if String.eqb
             (v1.PersistentVolumeStatus.Phase (v1.PersistentVolume.Status pv))
             v1.VolumeBound
        then mutatePV_bound clients pv
        else Ok pv in
      match after_if with
      | Ok pv =>
          let '(modifiedUnstructed, err) :=
            ToUnstructured_PersistentVolume pv in
          match err with
          | None => Ok (unstructured.mk modifiedUnstructed)
          | Some e => Err e
          end
      | Err e => Err e
      | Panic msg => Panic msg
      end
  end.

Definition mutatePods (resource : Unstructured) (_ : Clients) (_ : Event)
  : result Unstructured :=
  match FromUnstructured_Pod (unstructured.UnstructuredContent resource) with
  | inl err => Err err
  | inr pod =>
      let pod :=
        v1.Pod.mk (v1.Pod.ObjectMeta pod)
          (v1.PodSpec.with_ServiceAccountName "default" (v1.Pod.Spec pod))
          (v1.Pod.Remainder pod) in
      let '(modifiedUnstructed, err) := ToUnstructured_Pod pod in
      match err with
      | None => Ok (unstructured.mk modifiedUnstructed)
      | Some e => Err e
      end
  end.

(** filterPods checks if a pod is already scheduled when it's updated.
    We only want to update pods that are not yet scheduled. *)
Definition filterPods (resource : Unstructured) (_ : Clients) (event : Event)
  : list klog.Entry * (bool * option error) :=
  if negb (Event_eqb event Update) then ([], (true, None))
  else
    match FromUnstructured_Pod (unstructured.UnstructuredContent resource) with
    | inl err => ([], (false, Some err))
    | inr pod =>
        if negb (String.eqb (v1.PodSpec.NodeName (v1.Pod.Spec pod)) "")
        then
          ([klog.InfoS "Pod is scheduled. We ignore Pods already scheduled"
              [("pod", v1.ObjectMeta.Name (v1.Pod.ObjectMeta pod));
               ("namespace", v1.ObjectMeta.Namespace (v1.Pod.ObjectMeta pod))]],
           (false, None))
        else
          (* This Pod should be applied on the destination cluster. *)
          ([], (true, None))
    end.

Definition persistentvolumes : GVR := mkGVR "" "v1" "persistentvolumes".
Definition pods : GVR := mkGVR "" "v1" "pods".

(** MandatoryMutatingFunctions is a map of GroupVersionResource to
    MutatingFunction.  Outside users must call them in their own
    mutating functions. *)
Definition MandatoryMutatingFunctions : gmap GVR MutatingFunction :=
  <[persistentvolumes := mutatePV]> (<[pods := mutatePods]> ∅).

(** MandatoryFilteringFunctions is a map of GroupVersionResource to
    FilteringFunction.  Outside users must call them in their own
    filtering functions. *)
Definition MandatoryFilteringFunctions : gmap GVR FilteringFunction :=
  <[pods := filterPods]> ∅.

(** The Service.  [clients] is a pointer in Go; here the receiver is
    passed in and handed back, with the state of the clients inside. *)
Record Service := mkService {
  clients : Clients;
  gvrs : list GVR;
  mutatingFunctions : gmap GVR MutatingFunction;
  filteringFunctions : gmap GVR FilteringFunction;
}.

Record Options := mkOptions {
  (* GVRsToSync is a list of GroupVersionResource that will be synced.
     If GVRsToSync is nil MandatoryGVRs will be synced. *)
  GVRsToSync : option (list GVR);
  (* AdditionalMutatingFunctions is a list of mutating functions that
     users add.  When users add mutating functions, they must call
     MandatoryMutatingFunctions in them if they exist for the keys. *)
  AdditionalMutatingFunctions : gmap GVR MutatingFunction;
  (* AdditionalFilteringFunctions is a list of filtering functions that
     users add.  When users add filtering functions, they must call
     MandatoryFilteringFunctions in them if they exist for the keys. *)
  AdditionalFilteringFunctions : gmap GVR FilteringFunction;
}.

(** The two package-level map variables.  [New] stores them in the
    Service without copying and then writes into them, so the writes
    land in the package variables as well. *)
Record PackageVars := mkPackageVars {
  varMandatoryMutatingFunctions : gmap GVR MutatingFunction;
  varMandatoryFilteringFunctions : gmap GVR FilteringFunction;
}.

Definition initialPackageVars : PackageVars :=
  mkPackageVars MandatoryMutatingFunctions MandatoryFilteringFunctions.

(** for k, v := range src { dst[k] = v } *)
Definition assign_all {V : Type} (dst src : gmap GVR V) : gmap GVR V :=
  map_fold (fun k v acc => <[k := v]> acc) dst src.

Definition New (srcDynamicClient : S) (destDynamicClient : D)
  (restMapper : meta.RESTMapper) (options : Options) (pkg : PackageVars)
  : Service * PackageVars :=
  let gvrs :=
    match GVRsToSync options with
    | Some l => l
    | None => MandatoryGVRs
    end in
  let mutatingFunctions :=
    assign_all (varMandatoryMutatingFunctions pkg)
               (AdditionalMutatingFunctions options) in
  let filteringFunctions :=
    assign_all (varMandatoryFilteringFunctions pkg)
               (AdditionalFilteringFunctions options) in
  (mkService (mkClients srcDynamicClient destDynamicClient restMapper)
             gvrs mutatingFunctions filteringFunctions,
   mkPackageVars mutatingFunctions filteringFunctions).

Definition with_DestDynamicClient (s : Service) (dest : D) : Service :=
  mkService
    (mkClients (SrcDynamicClient (clients s)) dest (RestMapper (clients s)))
    (gvrs s) (mutatingFunctions s) (filteringFunctions s).

Definition non_nil (err : option error) : bool :=
  match err with
  | Some _ => true
  | None => false
  end.

(** findGVRForGVK uses the discovery client to get the
    GroupVersionResource for a given GroupVersionKind. *)
Definition findGVRForGVK (s : Service) (gvk : GVK) : error + GVR :=
  meta.RESTMapping (RestMapper (clients s))
    (schema.GroupVersionKind.GroupKind gvk)
    (schema.GroupVersionKind.Version gvk).

(** removeUnnecessaryMetadata removes the metadata from the resource. *)
Definition removeUnnecessaryMetadata (resource : Unstructured)
  : Unstructured :=
  let resource := unstructured.SetUID resource "" in
  let resource := unstructured.SetGeneration resource 0 in
  let resource := unstructured.SetResourceVersion resource "" in
  resource.

(** The filtering step shared in shape by the create and the update
    path: without a registered function the step passes. *)
Definition run_filtering (s : Service) (gvr : GVR) (resource : Unstructured)
  (event : Event) : list klog.Entry * (bool * option error) :=
  match filteringFunctions s !! gvr with
  | Some filteringFn => filteringFn resource (clients s) event
  | None => ([], (true, None))
  end.

(** The mutating step: without a registered function the resource goes
    on as it is. *)
Definition run_mutating (s : Service) (gvr : GVR) (resource : Unstructured)
  (event : Event) : result Unstructured :=
  match mutatingFunctions s !! gvr with
  | Some mutatingFn => mutatingFn resource (clients s) event
  | None => Ok resource
  end.

(** createResourceOnDestinationCluster creates the resource on the
    destination cluster. *)
Definition createResourceOnDestinationCluster (s : Service)
  (resource : Unstructured) : result unit * Service * list klog.Entry :=
  (* Extract the GroupVersionResource from the Unstructured object *)
  let gvk := unstructured.GroupVersionKind resource in
  match findGVRForGVK s gvk with
  | inl err => (Err err, s, [])
  | inr gvr =>
      (* Namespaces resources should be created within the namespace
         defined in the Unstructured object *)
      let namespace := unstructured.GetNamespace resource in
      (* Run the filtering function for the resource. *)
      let '(logged, (ok, err)) := run_filtering s gvr resource Add in
      if negb ok || non_nil err then (return_error err, s, logged)
      else
        (* When creating a resource on the destination cluster, we must
           remove the metadata such as UID and Generation.  It's done
           for all resources. *)
        let resource := removeUnnecessaryMetadata resource in
        (* Run the mutating function for the resource. *)
        match run_mutating s gvr resource Add with
        | Panic msg => (Panic msg, s, logged)
        | Err err => (Err (Errorf "failed to mutate resource" err), s, logged)
        | Ok resource =>
            (* Create the resource on the destination cluster using the
               dynamic client *)
            let '(res, dest) :=
              dynamic.Create (DestDynamicClient (clients s)) gvr namespace
                             resource in
            let s := with_DestDynamicClient s dest in
            match res with
            | inl err =>
                (Err (Errorf "failed to create resource" err), s, logged)
            | inr _ => (Ok tt, s, logged)
            end
        end
  end.

Definition updateResourceOnDestinationCluster (s : Service)
  (resource : Unstructured) : result unit * Service * list klog.Entry :=
  (* Extract the GroupVersionResource from the Unstructured object. *)
  let gvk := unstructured.GroupVersionKind resource in
  match findGVRForGVK s gvk with
  | inl err => (Err err, s, [])
  | inr gvr =>
      let namespace := unstructured.GetNamespace resource in
      (* Run the filtering function for the resource. *)
      let '(logged, (ok, err)) := run_filtering s gvr resource Update in
      if negb ok || non_nil err then (return_error err, s, logged)
      else
        (* Run the mutating function for the resource. *)
        match run_mutating s gvr resource Update with
        | Panic msg => (Panic msg, s, logged)
        | Err err => (Err (Errorf "failed to mutate resource" err), s, logged)
        | Ok resource =>
            let '(res, dest) :=
              dynamic.Update (DestDynamicClient (clients s)) gvr namespace
                             resource in
            let s := with_DestDynamicClient s dest in
            match res with
            | inl err =>
                (Err (Errorf "failed to create resource" err), s, logged)
            | inr _ => (Ok tt, s, logged)
            end
        end
  end.

Definition deleteResourceOnDestinationCluster (s : Service)
  (resource : Unstructured) : result unit * Service * list klog.Entry :=
  (* Extract the GroupVersionResource from the Unstructured object *)
  let gvk := unstructured.GroupVersionKind resource in
  match findGVRForGVK s gvk with
  | inl err => (Err err, s, [])
  | inr gvr =>
      let namespace := unstructured.GetNamespace resource in
      let '(res, dest) :=
        dynamic.Delete (DestDynamicClient (clients s)) gvr namespace
                       (unstructured.GetName resource) in
      let s := with_DestDynamicClient s dest in
      match res with
      | Some err => (Err (Errorf "failed to delete resource" err), s, [])
      | None => (Ok tt, s, [])
      end
  end.

Definition conversion_failed : klog.Entry :=
  klog.Error
    "Failed to convert runtime.Object to *unstructured.Unstructured".

Definition addFunc (s : Service) (obj : interface)
  : completion * Service * list klog.Entry :=
  match obj with
  | OtherValue _ => (Returned, s, [conversion_failed])
  | UnstructuredPtr unstructObj =>
      let '(err, s, logged) :=
        createResourceOnDestinationCluster s unstructObj in
      match err with
      | Panic msg => (Panicked msg, s, logged)
      | Err err =>
          (Returned, s,
           logged ++
           [klog.ErrorS err "Failed to create resource on destination cluster"])
      | Ok _ => (Returned, s, logged)
      end
  end.

Definition updateFunc (s : Service) (_ newObj : interface)
  : completion * Service * list klog.Entry :=
  match newObj with
  | OtherValue _ => (Returned, s, [conversion_failed])
  | UnstructuredPtr unstructObj =>
      let '(err, s, logged) :=
        updateResourceOnDestinationCluster s unstructObj in
      match err with
      | Panic msg => (Panicked msg, s, logged)
      | Err err =>
          if errors.IsNotFound err
          then
            (Returned, s,
             logged ++
             [klog.Info "Skipped to update resource on destination: "
                        (Some err)])
          else
            (Returned, s,
             logged ++
             [klog.ErrorS err
                "Failed to update resource on destination cluster"])
      | Ok _ => (Returned, s, logged)
      end
  end.

Definition deleteFunc (s : Service) (obj : interface)
  : completion * Service * list klog.Entry :=
  match obj with
  | OtherValue _ => (Returned, s, [conversion_failed])
  | UnstructuredPtr unstructObj =>
      let '(err, s, logged) :=
        deleteResourceOnDestinationCluster s unstructObj in
      match err with
      | Panic msg => (Panicked msg, s, logged)
      | Err err =>
          if errors.IsNotFound err
          then
            (Returned, s,
             logged ++
             [klog.Info "Skipped to delete resource on destination: "
                        (Some err)])
          else
            (Returned, s,
             logged ++
             [klog.ErrorS err
                "Failed to delete resource on destination cluster"])
      | Ok _ => (Returned, s, logged)
      end
  end.

End Syncer.

End syncer.

(** ** A converter and clients to run the code on

    A small converter over the fields of the typed views, the in-memory
    tracker as source, and a recording tracker as destination, in the
    manner of the fake clients of syncer_test.go. *)

Module fixtures.
Import unstructured.

Definition nested_map (obj : gmap string value) (field : string)
  : option (gmap string value) :=
  match obj !! field with
  | Some (VMap m) => Some m
  | None | Some VNull => Some ∅
  | Some _ => None
  end.

Definition string_field (obj : gmap string value) (field : string)
  : option string :=
  match obj !! field with
  | Some (VString s) => Some s
  | None | Some VNull => Some ""
  | Some _ => None
  end.

(** A string field under the json "omitempty" rule. *)
Definition put_string (field s : string) (obj : gmap string value)
  : gmap string value :=
  if String.eqb s "" then delete field obj else <[field := VString s]> obj.

Definition type_mismatch : error :=
  ErrorString "json: cannot unmarshal into Go value".

Definition object_meta (obj : gmap string value) : v1.ObjectMeta.t :=
  v1.ObjectMeta.mk (getNestedString obj ["metadata"; "name"])
                   (getNestedString obj ["metadata"; "namespace"]).

Definition pod_of (obj : gmap string value) : error + v1.Pod.t :=
  match nested_map obj "spec" with
  | None => inl type_mismatch
  | Some spec =>
      match string_field spec "nodeName",
            string_field spec "serviceAccountName" with
      | Some nodeName, Some serviceAccountName =>
          inr (v1.Pod.mk (object_meta obj)
                 (v1.PodSpec.mk nodeName serviceAccountName
                    (delete "nodeName" (delete "serviceAccountName" spec)))
                 (delete "spec" obj))
      | _, _ => inl type_mismatch
      end
  end.

Definition of_pod (pod : v1.Pod.t) : gmap string value * option error :=
  let spec := v1.Pod.Spec pod in
  (<["spec" :=
      VMap (put_string "nodeName" (v1.PodSpec.NodeName spec)
              (put_string "serviceAccountName"
                 (v1.PodSpec.ServiceAccountName spec)
                 (v1.PodSpec.Remainder spec)))]>
     (v1.Pod.Remainder pod),
   None).

Definition claim_ref_of (spec : gmap string value)
  : option (option v1.ObjectReference.t) :=
  match spec !! "claimRef" with
  | None | Some VNull => Some None
  | Some (VMap ref) =>
      match string_field ref "namespace", string_field ref "name",
            string_field ref "uid" with
      | Some ns, Some name, Some uid =>
          Some (Some (v1.ObjectReference.mk ns name uid
                        (delete "namespace"
                           (delete "name" (delete "uid" ref)))))
      | _, _, _ => None
      end
  | Some _ => None
  end.

Definition pv_of (obj : gmap string value)
  : error + v1.PersistentVolume.t :=
  match nested_map obj "spec", nested_map obj "status" with
  | Some spec, Some status =>
      match claim_ref_of spec, string_field status "phase" with
      | Some claimRef, Some phase =>
          inr (v1.PersistentVolume.mk (object_meta obj)
                 (v1.PersistentVolumeSpec.mk claimRef (delete "claimRef" spec))
                 (v1.PersistentVolumeStatus.mk phase (delete "phase" status))
                 (delete "spec" (delete "status" obj)))
      | _, _ => inl type_mismatch
      end
  | _, _ => inl type_mismatch
  end.

Definition of_claim_ref (ref : v1.ObjectReference.t) : value :=
  VMap (put_string "namespace" (v1.ObjectReference.Namespace ref)
          (put_string "name" (v1.ObjectReference.Name ref)
             (put_string "uid" (v1.ObjectReference.UID ref)
                (v1.ObjectReference.Remainder ref)))).

Definition of_pv (pv : v1.PersistentVolume.t)
  : gmap string value * option error :=
  let spec := v1.PersistentVolume.Spec pv in
  let status := v1.PersistentVolume.Status pv in
  let spec_map :=
    match v1.PersistentVolumeSpec.ClaimRef spec with
    | Some ref =>
        <["claimRef" := of_claim_ref ref]>
          (v1.PersistentVolumeSpec.Remainder spec)
    | None => v1.PersistentVolumeSpec.Remainder spec
    end in
  (<["spec" := VMap spec_map]>
     (<["status" :=
         VMap (put_string "phase" (v1.PersistentVolumeStatus.Phase status)
                 (v1.PersistentVolumeStatus.Remainder status))]>
        (v1.PersistentVolume.Remainder pv)),
   None).

#[local] Instance converter : UnstructuredConverter := {
  FromUnstructured_Pod := pod_of;
  ToUnstructured_Pod := of_pod;
  FromUnstructured_PersistentVolume := pv_of;
  ToUnstructured_PersistentVolume := of_pv;
}.

(** The REST mapper of the tests, extended to the mandatory resources. *)
Definition kinds : list (string * string * string * string) :=
  [ ("", "v1", "Namespace", "namespaces");
    ("", "v1", "PersistentVolumeClaim", "persistentvolumeclaims");
    ("", "v1", "Node", "nodes");
    ("", "v1", "PersistentVolume", "persistentvolumes");
    ("", "v1", "Pod", "pods") ].

Fixpoint find_kind (l : list (string * string * string * string))
  (gk : schema.GroupKind.t) (version : string) : error + GVR :=
  match l with
  | [] => inl (NoKindMatchError gk version)
  | (g, v, k, r) :: rest =>
      if String.eqb g (schema.GroupKind.Group gk)
         && String.eqb v version
         && String.eqb k (schema.GroupKind.Kind gk)
      then inr (mkGVR g v r)
      else find_kind rest gk version
  end.

Definition mapper : meta.RESTMapper := meta.mk (find_kind kinds).

(** An object with the given kind, namespace and name, and further
    metadata and top-level fields. *)
Definition object (kind ns name : string)
  (metadata fields : list (string * value)) : Unstructured :=
  mk (<["apiVersion" := VString "v1"]>
        (<["kind" := VString kind]>
           (<["metadata" :=
               VMap (<["name" := VString name]>
                       (<["namespace" := VString ns]>
                          (list_to_map metadata)))]>
              (list_to_map fields)))).

(** Objects in the manner of the tests. *)
Definition containers (name : string) : value :=
  VList [VMap (<["name" := VString name]> ∅)].

Definition pod_1 : Unstructured :=
  object "Pod" "default" "pod-1"
    [("uid", VString "uid-src-pod-1"); ("generation", VInt 3);
     ("resourceVersion", VString "42")]
    [("spec", VMap (<["containers" := containers "container-1"]> ∅))].

(** Got NodeName, so this Pod is scheduled. *)
Definition pod_1_scheduled : Unstructured :=
  object "Pod" "default" "pod-1"
    [("uid", VString "uid-src-pod-1"); ("generation", VInt 4);
     ("resourceVersion", VString "43")]
    [("spec", VMap (<["containers" := containers "container-1"]>
                      (<["nodeName" := VString "node-1"]> ∅)))].

Definition namespace_default : Unstructured :=
  object "Namespace" "" "default"
    [("uid", VString "uid-src-ns"); ("resourceVersion", VString "7")] [].

(** An object of a kind the REST mapper does not know. *)
Definition widget_1 : Unstructured :=
  object "Widget" "default" "widget-1" [] [].

Definition claim (uid : string) : Unstructured :=
  object "PersistentVolumeClaim" "default" "pvc-1" [("uid", VString uid)] [].

Definition claim_ref (uid : string) : value :=
  VMap (<["namespace" := VString "default"]>
          (<["name" := VString "pvc-1"]> (<["uid" := VString uid]> ∅))).

(** A volume bound to the claim pvc-1, which it knows by [uid]. *)
Definition pv_bound (uid : string) : Unstructured :=
  object "PersistentVolume" "" "pv-1" []
    [("spec", VMap (<["claimRef" := claim_ref uid]> ∅));
     ("status", VMap (<["phase" := VString "Bound"]> ∅))].

Definition pv_bound_without_claim : Unstructured :=
  object "PersistentVolume" "" "pv-1" []
    [("spec", VMap ∅);
     ("status", VMap (<["phase" := VString "Bound"]> ∅))].

Definition pv_available : Unstructured :=
  object "PersistentVolume" "" "pv-1" []
    [("spec", VMap ∅);
     ("status", VMap (<["phase" := VString "Available"]> ∅))].

(** A store holding the given objects of one resource. *)
Definition store (gvr : GVR) (objs : list Unstructured) : ObjectTracker.t :=
  list_to_map
    (map (fun obj => ((gvr, GetNamespace obj, GetName obj), obj)) objs).

Definition recording (tr : ObjectTracker.t) : Recording.t ObjectTracker.t :=
  Recording.mk tr [].

Definition no_options
  : @syncer.Options ObjectTracker.t (Recording.t ObjectTracker.t) :=
  syncer.mkOptions None ∅ ∅.

(** The Service New builds over the given stores, starting from the
    package variables as declared. *)
Definition service (src dest : ObjectTracker.t)
  (options : @syncer.Options ObjectTracker.t (Recording.t ObjectTracker.t))
  : @syncer.Service ObjectTracker.t (Recording.t ObjectTracker.t) :=
  fst (syncer.New src (recording dest) mapper options
         syncer.initialPackageVars).

Definition namespaces : GVR := mkGVR "" "v1" "namespaces".

(** A caller-supplied mutating function within the interface of
    mutating functions: it reads the object from the source store and
    puts the UID found there on the resource. *)
Definition restore_uid (gvr : GVR)
  : @syncer.MutatingFunction ObjectTracker.t (Recording.t ObjectTracker.t) :=
  fun resource clients _ =>
    match dynamic.Get (syncer.SrcDynamicClient clients) gvr
            (GetNamespace resource) (GetName resource) with
    | inl err => Err err
    | inr observed => Ok (SetUID resource (GetUID observed))
    end.

(** Caller-supplied functions that leave everything as it is. *)
Definition keep
  : @syncer.MutatingFunction ObjectTracker.t (Recording.t ObjectTracker.t) :=
  fun resource _ _ => Ok resource.

Definition accept
  : @syncer.FilteringFunction ObjectTracker.t (Recording.t ObjectTracker.t) :=
  fun _ _ _ => ([], (true, None)).

(** A Service whose caller registered [restore_uid] for namespaces, over
    a source that holds the namespace "default". *)
Definition restoring_service
  : @syncer.Service ObjectTracker.t (Recording.t ObjectTracker.t) :=
  service (store namespaces [namespace_default]) ∅
    (syncer.mkOptions None {[namespaces := restore_uid namespaces]} ∅).

(** The Service with the functions as declared, over an empty source
    and the given destination. *)
Definition default_service (dest : ObjectTracker.t)
  : @syncer.Service ObjectTracker.t (Recording.t ObjectTracker.t) :=
  service ∅ dest no_options.

(** A Service whose caller registered [keep] and [accept] for pods, over
    a destination that holds pod-1. *)
Definition overriding_service
  : @syncer.Service ObjectTracker.t (Recording.t ObjectTracker.t) :=
  service ∅ (store syncer.pods [pod_1])
    (syncer.mkOptions None {[syncer.pods := keep]} {[syncer.pods := accept]}).

(** The claim pvc-1 has one UID on the source and another on the
    destination, as after an import. *)
Definition claim_service
  : @syncer.Service ObjectTracker.t (Recording.t ObjectTracker.t) :=
  service (store syncer.persistentvolumeclaims [claim "uid-src-pvc"])
          (store syncer.persistentvolumeclaims [claim "uid-dest-pvc"])
          no_options.

Definition pod_2 : Unstructured :=
  object "Pod" "default" "pod-2" []
    [("spec", VMap (<["containers" := containers "container-2"]> ∅))].

End fixtures.

(** ** Package recorder *)

Module recorder.

Inductive Event := Add | Update | Delete.

(** The Go type Record: {event, resource}. *)
Module JournalRecord.
Record t := mk { Event : Event; Resource : Unstructured }.
End JournalRecord.

(** encoding/json at the type []Record: the encoding of a journal as
    file contents and the decoding, which fails on contents that are no
    journal. *)
Class JSON := {
  bytes : Type;
  Marshal : list JournalRecord.t -> bytes;
  Unmarshal : bytes -> option (list JournalRecord.t);
}.

Section Recorder.

Context `{!JSON}.

(** The file system [fs] of the definitions below holds the contents of
    files by path. *)

(** Modelled from the spec: the Recorder's Service and its event
    handling, whose source is not part of the files at hand (only its
    test is).  The Recorder keeps an in-memory ordered buffer; on every
    Add, Update or Delete it appends a Journal Record holding the Object
    exactly as observed, and flushes the entire buffer to the Journal
    file after each append, replacing the file wholesale. *)
Record Service := mkService {
  path : string;
  records : list JournalRecord.t;
}.

Definition New (path : string) : Service := mkService path [].

Definition RecordEvent (s : Service) (fs : gmap string bytes)
  (obj : Unstructured) (e : Event) : Service * gmap string bytes :=
  let records := records s ++ [JournalRecord.mk e obj] in
  (mkService (path s) records, <[path s := Marshal records]> fs).

(** The events of a change feed, handled one at a time in arrival order. *)
Fixpoint observe (s : Service) (fs : gmap string bytes)
  (events : list (Event * Unstructured)) : Service * gmap string bytes :=
  match events with
  | [] => (s, fs)
  | (e, obj) :: rest =>
      let '(s, fs) := RecordEvent s fs obj e in
      observe s fs rest
  end.

(** Reading the Journal back: the whole file, decoded as one array. *)
Definition ReadJournal (fs : gmap string bytes) (path : string)
  : option (list JournalRecord.t) :=
  match fs !! path with
  | Some bytes => Unmarshal bytes
  | None => None
  end.

End Recorder.

End recorder.

(** ** Package replayer *)

Module replayer.

(** The ResourceApplier interface the Replayer is built on (the mock of
    replayer_test.go implements it). *)
Class ResourceApplier (A : Type) := {
  Create : A -> Unstructured -> option error * A;
}.

(** An applier that keeps the objects it was asked to create and what
    it answered, in call order, in front of another applier. *)
Module Calls.
Record t (A : Type) := mk {
  applier : A;
  created : list (Unstructured * option error);
}.
Arguments mk {A} applier created.
Arguments applier {A} _.
Arguments created {A} _.
End Calls.

#[global] Instance Calls_ResourceApplier {A} `{ResourceApplier A}
  : ResourceApplier (Calls.t A) := {
  Create c obj :=
    let '(err, a) := Create (Calls.applier c) obj in
    (err, Calls.mk a (Calls.created c ++ [(obj, err)]));
}.

(** The mocked applier of replayer_test.go: the results it was told to
    return, one per expected call; a call beyond them fails. *)
Module MockResourceApplier.
Record t := mk { expected : list (option error) }.
Definition create (m : t) (_ : Unstructured) : option error * t :=
  match expected m with
  | [] => (Some (ErrorString "unexpected call to Create"), m)
  | r :: rest => (r, mk rest)
  end.
End MockResourceApplier.

#[global] Instance MockResourceApplier_ResourceApplier
  : ResourceApplier MockResourceApplier.t := {
  Create := MockResourceApplier.create;
}.

Section Replayer.

Context {A : Type} `{!ResourceApplier A} `{!recorder.JSON}.

(** Modelled from the spec: the Replayer's Service and Replay, whose
    source is not part of the files at hand (only its test and the
    mocked applier are).  Replay reads the whole Journal, then for each
    Journal Record in file order invokes the applier's Create for Add
    records; a Create failing with "already exists" is treated as
    success and replay continues; any other error aborts the remaining
    replay and is surfaced to the caller.  A Journal that cannot be read
    or decoded fails the whole Replay. *)
Record Service := mkService {
  applier : A;
  path : string;
}.

Definition New (applier : A) (path : string) : Service :=
  mkService applier path.

Fixpoint replay (applier : A) (records : list recorder.JournalRecord.t)
  : option error * A :=
  match records with
  | [] => (None, applier)
  | record :: rest =>
      match recorder.JournalRecord.Event record with
      | recorder.Add =>
          let '(err, applier) :=
            Create applier (recorder.JournalRecord.Resource record) in
          match err with
          | Some err =>
              if errors.IsAlreadyExists err
              then replay applier rest
              else (Some (Errorf "failed to replay event" err), applier)
          | None => replay applier rest
          end
      | _ => replay applier rest
      end
  end.

Definition Replay (s : Service) (fs : gmap string recorder.bytes)
  : option error * Service :=
  match fs !! path s with
  | None => (Some (ErrorString "failed to read the journal"), s)
  | Some bytes =>
      match recorder.Unmarshal bytes with
      | None => (Some (ErrorString "failed to unmarshal the journal"), s)
      | Some records =>
          let '(err, applier) := replay (applier s) records in
          (err, mkService applier (path s))
      end
  end.

End Replayer.

End replayer.

(** ** Terms the properties are stated in *)

Module terms.
Import unstructured syncer.

(** The three metadata fields read as their zero values. *)
Definition identity_cleared (u : Unstructured) : Prop :=
  GetUID u = "" /\ GetGeneration u = 0%Z /\ GetResourceVersion u = "".

(** How a handler ends for a given outcome of the path it drives. *)
Definition completion_of (r : result unit) : completion :=
  match r with
  | Panic msg => Panicked msg
  | _ => Returned
  end.

(** What addFunc writes to the log for an outcome of the create path. *)
Definition add_log (r : result unit) : list klog.Entry :=
  match r with
  | Err err =>
      [klog.ErrorS err "Failed to create resource on destination cluster"]
  | _ => []
  end.

(** What updateFunc writes to the log for an outcome of the update path. *)
Definition update_log (r : result unit) : list klog.Entry :=
  match r with
  | Err err =>
      if errors.IsNotFound err
      then [klog.Info "Skipped to update resource on destination: " (Some err)]
      else [klog.ErrorS err "Failed to update resource on destination cluster"]
  | _ => []
  end.

(** What deleteFunc writes to the log for an outcome of the delete path. *)
Definition delete_log (r : result unit) : list klog.Entry :=
  match r with
  | Err err =>
      if errors.IsNotFound err
      then [klog.Info "Skipped to delete resource on destination: " (Some err)]
      else [klog.ErrorS err "Failed to delete resource on destination cluster"]
  | _ => []
  end.

Section Observed.

Context {S D : Type}.
Context `{!dynamic.Interface S} `{!dynamic.Interface D}.
Context `{!UnstructuredConverter}.

(** The destination client of the theorems records the write requests
    it receives in front of an arbitrary client [D]. *)
Abbreviation Service := (@syncer.Service S (Recording.t D)).

(** The write requests the destination has received so far. *)
Definition received (s : Service) : list Action :=
  Recording.actions (DestDynamicClient (clients s)).

(** Each path sends the destination at most one request, and hands the
    Service back with nothing changed but the destination client. *)
Definition at_most_one_request (s s' : Service) : Prop :=
  (received s' = received s \/ exists a, received s' = received s ++ [a])
  /\ SrcDynamicClient (clients s') = SrcDynamicClient (clients s)
  /\ RestMapper (clients s') = RestMapper (clients s)
  /\ gvrs s' = gvrs s
  /\ mutatingFunctions s' = mutatingFunctions s
  /\ filteringFunctions s' = filteringFunctions s.

(** The Service with other functions registered. *)
Definition with_functions (s : Service)
  (mutating : gmap GVR (@MutatingFunction S (Recording.t D)))
  (filtering : gmap GVR (@FilteringFunction S (Recording.t D))) : Service :=
  mkService (clients s) (gvrs s) mutating filtering.

(** What mutatePV returns for a volume that decoded. *)
Definition encode_pv (pv : v1.PersistentVolume.t) : result Unstructured :=
  let '(modifiedUnstructed, err) := ToUnstructured_PersistentVolume pv in
  match err with
  | None => Ok (unstructured.mk modifiedUnstructed)
  | Some e => Err e
  end.

(** The UID a volume knows its claim by. *)
Definition claim_uid (obj : Unstructured) : string :=
  getNestedString (Object obj) ["spec"; "claimRef"; "uid"].

(** The service account a pod runs under. *)
Definition service_account (obj : Unstructured) : string :=
  getNestedString (Object obj) ["spec"; "serviceAccountName"].

End Observed.

End terms.

Module journal_terms.

(** The records a sequence of observed events stands for. *)
Definition as_records (events : list (recorder.Event * Unstructured))
  : list recorder.JournalRecord.t :=
  map (fun '(e, obj) => recorder.JournalRecord.mk e obj) events.

Definition is_Add (record : recorder.JournalRecord.t) : bool :=
  match recorder.JournalRecord.Event record with
  | recorder.Add => true
  | _ => false
  end.

(** The objects of the Add records of a journal, in file order. *)
Definition adds (records : list recorder.JournalRecord.t)
  : list Unstructured :=
  map recorder.JournalRecord.Resource (List.filter is_Add records).

(** A result of Create that lets the replay go on. *)
Definition benign (r : option error) : Prop :=
  match r with
  | None => True
  | Some err => errors.IsAlreadyExists err = true
  end.

(** What a replay has done when it returns, in terms of the calls the
    applier received: without an error every Add record was handed to
    Create, in file order, and every answer was benign; with an error
    the last call is the one that failed, with an error that is not
    "already exists" and that the returned error wraps, the calls before
    it were benign, and the Add records after it were not handed on. *)
Definition replayed (records : list recorder.JournalRecord.t)
  (err : option error) (calls : list (Unstructured * option error)) : Prop :=
  match err with
  | None =>
      map fst calls = adds records /\ Forall (fun c => benign (snd c)) calls
  | Some e =>
      exists before obj cause rest,
        calls = before ++ [(obj, Some cause)]
        /\ Forall (fun c => benign (snd c)) before
        /\ errors.IsAlreadyExists cause = false
        /\ e = Errorf "failed to replay event" cause
        /\ adds records = map fst before ++ obj :: rest
  end.

End journal_terms.

(** ** A journal encoding and an applier to run the code on *)

Module journal_fixtures.
Import fixtures.

(** The journal kept as the list of its records: an encoding for which
    decoding gives back what was encoded. *)
Definition plain_json : recorder.JSON :=
  {| recorder.bytes := list recorder.JournalRecord.t;
     recorder.Marshal := fun records => records;
     recorder.Unmarshal := fun contents => Some contents |}.

(** The events of "should record updating a pod". *)
Definition observed_events : list (recorder.Event * Unstructured) :=
  [(recorder.Add, pod_1); (recorder.Update, pod_1_scheduled);
   (recorder.Delete, pod_1_scheduled)].

(** A journal with two Add records around an Update. *)
Definition journal : list recorder.JournalRecord.t :=
  [recorder.JournalRecord.mk recorder.Add pod_1;
   recorder.JournalRecord.mk recorder.Update pod_1_scheduled;
   recorder.JournalRecord.mk recorder.Add pod_2].

(** A Replayer over a mocked applier told what to answer, reading the
    journal above from record.json. *)
Definition replayer_over (answers : list (option error))
  : @replayer.Service (replayer.Calls.t replayer.MockResourceApplier.t) :=
  replayer.New
    (replayer.Calls.mk (replayer.MockResourceApplier.mk answers) [])
    "record.json".

Definition journal_file : gmap string (list recorder.JournalRecord.t) :=
  {["record.json" := journal]}.

End journal_fixtures.

(** ** The handlers as an informer calls them *)

Module informer.
Import syncer.

(** What an informer notifies its handler of: the three callbacks of
    cache.ResourceEventHandlerFuncs. *)
Inductive Notification :=
| OnAdd (obj : interface)
| OnUpdate (oldObj newObj : interface)
| OnDelete (obj : interface).

Section Handlers.

Context {S D : Type}.
Context `{!dynamic.Interface S} `{!dynamic.Interface D}.
Context `{!UnstructuredConverter}.

(** Run registers the three handlers with every informer:
    AddFunc: s.addFunc, UpdateFunc: s.updateFunc, DeleteFunc:
    s.deleteFunc. *)
Definition handle (s : @Service S D) (n : Notification)
  : completion * @Service S D * list klog.Entry :=
  match n with
  | OnAdd obj => addFunc s obj
  | OnUpdate oldObj newObj => updateFunc s oldObj newObj
  | OnDelete obj => deleteFunc s obj
  end.

(** The notifications of an informer reach the handler one at a time,
    in order; a panic that escapes a handler ends the process, so that
    nothing after it is handled. *)
Fixpoint deliver (s : @Service S D) (notifications : list Notification)
  : completion * @Service S D * list klog.Entry :=
  match notifications with
  | [] => (Returned, s, [])
  | n :: rest =>
      let '(c, s, logged) := handle s n in
      match c with
      | Panicked msg => (Panicked msg, s, logged)
      | Returned =>
          let '(c, s, logged') := deliver s rest in
          (c, s, logged ++ logged')
      end
  end.

End Handlers.

End informer.

(** ** Further terms the properties are stated in *)

Module more_terms.
Import unstructured syncer informer terms.

(** The verb of a write request and the verb a notification can lead
    to. *)
Inductive Verb := VerbCreate | VerbUpdate | VerbDelete.

Definition verb_of_action (a : Action) : Verb :=
  match a with
  | CreateAction _ _ _ => VerbCreate
  | UpdateAction _ _ _ => VerbUpdate
  | DeleteAction _ _ _ => VerbDelete
  end.

Definition verb_of_notification (n : Notification) : Verb :=
  match n with
  | OnAdd _ => VerbCreate
  | OnUpdate _ _ => VerbUpdate
  | OnDelete _ => VerbDelete
  end.

(** The pod with the service account mutatePods gives it. *)
Definition with_default_service_account (pod : v1.Pod.t) : v1.Pod.t :=
  v1.Pod.mk (v1.Pod.ObjectMeta pod)
    (v1.PodSpec.with_ServiceAccountName "default" (v1.Pod.Spec pod))
    (v1.Pod.Remainder pod).

Section Kept.

Context {S D : Type}.
Context `{!dynamic.Interface S} `{!dynamic.Interface D}.
Context `{!UnstructuredConverter}.

(** What no handler changes: the source client, the REST mapper, the
    resources to sync and the registered functions. *)
Definition kept (s s' : @Service S (Recording.t D)) : Prop :=
  SrcDynamicClient (clients s') = SrcDynamicClient (clients s)
  /\ RestMapper (clients s') = RestMapper (clients s)
  /\ gvrs s' = gvrs s
  /\ mutatingFunctions s' = mutatingFunctions s
  /\ filteringFunctions s' = filteringFunctions s.

(** The destination received nothing, or one request of the verb. *)
Definition asked_at_most (v : Verb) (s s' : @Service S (Recording.t D))
  : Prop :=
  received s' = received s
  \/ exists a, received s' = received s ++ [a] /\ verb_of_action a = v.

End Kept.

End more_terms.

(** ** Further objects to run the code on *)

Module more_fixtures.
Import unstructured fixtures.

(** An object of kind Pod whose spec is a string: it does not decode
    to a pod. *)
Definition pod_malformed : Unstructured :=
  object "Pod" "default" "pod-9" [] [("spec", VString "none")].

(** What the converter of the examples decodes an object to, for the
    objects it decodes. *)
Definition decoded_pod (u : Unstructured) : v1.Pod.t :=
  match pod_of (UnstructuredContent u) with
  | inr pod => pod
  | inl _ =>
      v1.Pod.mk (v1.ObjectMeta.mk "" "") (v1.PodSpec.mk "" "" ∅) ∅
  end.

Definition decoded_pv (u : Unstructured) : v1.PersistentVolume.t :=
  match pv_of (UnstructuredContent u) with
  | inr pv => pv
  | inl _ =>
      v1.PersistentVolume.mk (v1.ObjectMeta.mk "" "")
        (v1.PersistentVolumeSpec.mk None ∅)
        (v1.PersistentVolumeStatus.mk "" ∅) ∅
  end.

(** The claim reference of the volumes of the examples. *)
Definition decoded_claim_ref (uid : string) : v1.ObjectReference.t :=
  v1.ObjectReference.mk "default" "pvc-1" uid ∅.

End more_fixtures.

(** * Properties *)

(** ** Unstructured accessors *)

Module unstructured_facts.
Import unstructured terms.

Ltac unfold_accessors :=
  unfold GetUID, SetUID, GetGeneration, SetGeneration, GetResourceVersion,
    SetResourceVersion, GetName, GetNamespace, GetKind, GetAPIVersion,
    getNestedString, getNestedInt64, setNestedField in *;
  cbn [NestedFieldNoCopy SetNestedField RemoveNestedField Object] in *.

Ltac by_metadata u :=
  unfold_accessors;
  destruct (Object u !! "metadata") as [[]|] eqn:?; cbn;
  simplify_map_eq; try reflexivity.

Lemma GetUID_SetUID_empty (u : Unstructured) :
  GetUID (SetUID u "") = "".
Proof. by_metadata u. Qed.

Lemma cleared_after_removal (u : Unstructured) :
  identity_cleared
    (SetResourceVersion (SetGeneration (SetUID u "") 0) "").
Proof.
  unfold identity_cleared. repeat split; by_metadata u.
Qed.

Lemma removal_keeps_name (u : Unstructured) :
  GetName (SetResourceVersion (SetGeneration (SetUID u "") 0) "") = GetName u
  /\ GetNamespace (SetResourceVersion (SetGeneration (SetUID u "") 0) "")
     = GetNamespace u.
Proof. split; by_metadata u. Qed.

End unstructured_facts.

(** ** The syncer *)

Module syncer_facts.
Import unstructured syncer terms.

Section Pipeline.

Context {S D : Type}.
Context `{!dynamic.Interface S} `{!dynamic.Interface D}.
Context `{!UnstructuredConverter}.

Abbreviation Service := (@syncer.Service S (Recording.t D)).

Lemma removeUnnecessaryMetadata_cleared (u : Unstructured) :
  identity_cleared (removeUnnecessaryMetadata u).
Proof. apply unstructured_facts.cleared_after_removal. Qed.

(** [assign_all] gives the assigned entry where there is one and the
    old entry elsewhere. *)
Lemma lookup_assign_all {V : Type} (dst src : gmap GVR V) (k : GVR) :
  assign_all dst src !! k =
  match src !! k with
  | Some v => Some v
  | None => dst !! k
  end.
Proof.
  unfold assign_all.
  apply (map_fold_weak_ind
           (fun r m => r !! k = match m !! k with
                                | Some v => Some v
                                | None => dst !! k
                                end)).
  - rewrite lookup_empty. reflexivity.
  - intros i x m r Hi IH.
    destruct (decide (i = k)) as [->|Hne].
    + rewrite !lookup_insert_eq. reflexivity.
    + rewrite !lookup_insert_ne by assumption. exact IH.
Qed.

(** What the create path does once the kind resolved and the filtering
    step let the resource pass: the mutating step runs on the resource
    with its metadata removed, and its result goes to Create under the
    namespace of the resource as observed. *)
Lemma create_after_filter (s : Service) (resource : Unstructured) (gvr : GVR)
  (logged : list klog.Entry) :
  findGVRForGVK s (GroupVersionKind resource) = inr gvr ->
  run_filtering s gvr resource Add = (logged, (true, None)) ->
  match run_mutating s gvr (removeUnnecessaryMetadata resource) Add with
  | Ok final =>
      let '(res, dest) :=
        dynamic.Create (DestDynamicClient (clients s)) gvr
                       (GetNamespace resource) final in
      createResourceOnDestinationCluster s resource =
      (match res with
       | inl err => Err (Errorf "failed to create resource" err)
       | inr _ => Ok tt
       end, with_DestDynamicClient s dest, logged)
  | Err err =>
      createResourceOnDestinationCluster s resource =
      (Err (Errorf "failed to mutate resource" err), s, logged)
  | Panic msg =>
      createResourceOnDestinationCluster s resource = (Panic msg, s, logged)
  end.
Proof.
  intros Hgvr Hfilter.
  unfold createResourceOnDestinationCluster.
  rewrite Hgvr, Hfilter. cbn [negb orb non_nil].
  destruct (run_mutating s gvr (removeUnnecessaryMetadata resource) Add)
    as [final|err|msg]; try reflexivity.
  destruct (dynamic.Create _ _ _ _) as [[err|created] dest]; reflexivity.
Qed.

Lemma received_after_Create (s : Service) (gvr : GVR) (ns : string)
  (obj : Unstructured) :
  received
    (with_DestDynamicClient s
       (snd (dynamic.Create (DestDynamicClient (clients s)) gvr ns obj)))
  = received s ++ [CreateAction gvr ns obj].
Proof.
  unfold received. cbn.
  destruct (dynamic.Create (Recording.client _) _ _ _). reflexivity.
Qed.

(** C1 (as amended).  For every Add whose kind resolves and which the
    filtering step lets pass, the UID, the generation and the
    resourceVersion of the resource are cleared, whatever the kind,
    before the mutating step runs: a registered mutating function is
    called on the cleared resource, and Create receives the cleared
    resource itself when no mutating function is registered for the
    kind, and otherwise what that function returned for it.  A mutating
    function that fails or panics leaves the destination without a
    request. *)
Theorem C1_metadata_removed_before_mutating
  (s : Service) (resource : Unstructured) (gvr : GVR)
  (logged : list klog.Entry) :
  findGVRForGVK s (GroupVersionKind resource) = inr gvr ->
  run_filtering s gvr resource Add = (logged, (true, None)) ->
  let cleared := removeUnnecessaryMetadata resource in
  let after := snd (fst (createResourceOnDestinationCluster s resource)) in
  identity_cleared cleared /\
  match mutatingFunctions s !! gvr with
  | None =>
      received after =
      received s ++ [CreateAction gvr (GetNamespace resource) cleared]
  | Some mutatingFn =>
      match mutatingFn cleared (clients s) Add with
      | Ok final =>
          received after =
          received s ++ [CreateAction gvr (GetNamespace resource) final]
      | _ => received after = received s
      end
  end.
Proof.
  intros Hgvr Hfilter cleared after.
  split; [apply removeUnnecessaryMetadata_cleared|].
  pose proof (create_after_filter s resource gvr logged Hgvr Hfilter) as Hc.
  unfold run_mutating in Hc. subst after. fold cleared in Hc.
  destruct (mutatingFunctions s !! gvr) as [mutatingFn|].
  - destruct (mutatingFn cleared (clients s) Add) as [final|err|msg].
    + destruct (dynamic.Create _ _ _ _) as [res dest] eqn:Hcreate.
      rewrite Hc. cbn [fst snd].
      replace dest with
        (snd (dynamic.Create (DestDynamicClient (clients s)) gvr
                (GetNamespace resource) final))
        by (rewrite Hcreate; reflexivity).
      apply received_after_Create.
    + rewrite Hc. reflexivity.
    + rewrite Hc. reflexivity.
  - destruct (dynamic.Create _ _ _ _) as [res dest] eqn:Hcreate.
    rewrite Hc. cbn [fst snd].
    replace dest with
      (snd (dynamic.Create (DestDynamicClient (clients s)) gvr
              (GetNamespace resource) cleared))
      by (rewrite Hcreate; reflexivity).
    apply received_after_Create.
Qed.

(** The update path once the kind resolved and the filtering step let
    the resource pass: the mutating step runs on the resource as
    observed. *)
Lemma update_after_filter (s : Service) (resource : Unstructured) (gvr : GVR)
  (logged : list klog.Entry) :
  findGVRForGVK s (GroupVersionKind resource) = inr gvr ->
  run_filtering s gvr resource Update = (logged, (true, None)) ->
  match run_mutating s gvr resource Update with
  | Ok final =>
      let '(res, dest) :=
        dynamic.Update (DestDynamicClient (clients s)) gvr
                       (GetNamespace resource) final in
      updateResourceOnDestinationCluster s resource =
      (match res with
       | inl err => Err (Errorf "failed to create resource" err)
       | inr _ => Ok tt
       end, with_DestDynamicClient s dest, logged)
  | Err err =>
      updateResourceOnDestinationCluster s resource =
      (Err (Errorf "failed to mutate resource" err), s, logged)
  | Panic msg =>
      updateResourceOnDestinationCluster s resource = (Panic msg, s, logged)
  end.
Proof.
  intros Hgvr Hfilter.
  unfold updateResourceOnDestinationCluster.
  rewrite Hgvr, Hfilter. cbn [negb orb non_nil].
  destruct (run_mutating s gvr resource Update) as [final|err|msg];
    try reflexivity.
  destruct (dynamic.Update _ _ _ _) as [[err|updated] dest]; reflexivity.
Qed.

Lemma received_after_Update (s : Service) (gvr : GVR) (ns : string)
  (obj : Unstructured) :
  received
    (with_DestDynamicClient s
       (snd (dynamic.Update (DestDynamicClient (clients s)) gvr ns obj)))
  = received s ++ [UpdateAction gvr ns obj].
Proof.
  unfold received. cbn.
  destruct (dynamic.Update (Recording.client _) _ _ _). reflexivity.
Qed.

(** C10.  On the update path nothing removes the UID, the generation or
    the resourceVersion: once the kind resolved and the filtering step
    let the resource pass, a registered mutating function is called on
    the resource as observed, and Update receives the resource as
    observed when no mutating function is registered for the kind (so
    with the very UID, generation and resourceVersion of the source),
    and otherwise what that function returned for it; every field the
    function returns as it found it therefore reaches the destination as
    observed. *)
Theorem C10_update_keeps_metadata
  (s : Service) (resource : Unstructured) (gvr : GVR)
  (logged : list klog.Entry) :
  findGVRForGVK s (GroupVersionKind resource) = inr gvr ->
  run_filtering s gvr resource Update = (logged, (true, None)) ->
  let after := snd (fst (updateResourceOnDestinationCluster s resource)) in
  match mutatingFunctions s !! gvr with
  | None =>
      received after =
      received s ++ [UpdateAction gvr (GetNamespace resource) resource]
  | Some mutatingFn =>
      match mutatingFn resource (clients s) Update with
      | Ok final =>
          received after =
          received s ++ [UpdateAction gvr (GetNamespace resource) final]
          /\ forall fields : list string,
               NestedFieldNoCopy (Object final) fields =
               NestedFieldNoCopy (Object resource) fields ->
               exists written,
                 last (received after) =
                 Some (UpdateAction gvr (GetNamespace resource) written)
                 /\ NestedFieldNoCopy (Object written) fields =
                    NestedFieldNoCopy (Object resource) fields
      | _ => received after = received s
      end
  end.
Proof.
  intros Hgvr Hfilter after.
  pose proof (update_after_filter s resource gvr logged Hgvr Hfilter) as Hu.
  unfold run_mutating in Hu. subst after.
  destruct (mutatingFunctions s !! gvr) as [mutatingFn|].
  - destruct (mutatingFn resource (clients s) Update) as [final|err|msg].
    + destruct (dynamic.Update _ _ _ _) as [res dest] eqn:Hupdate.
      rewrite Hu. cbn [fst snd].
      replace dest with
        (snd (dynamic.Update (DestDynamicClient (clients s)) gvr
                (GetNamespace resource) final))
        by (rewrite Hupdate; reflexivity).
      rewrite received_after_Update. split; [reflexivity|].
      intros fields Hsame. exists final. split; [|exact Hsame].
      apply last_snoc.
    + rewrite Hu. reflexivity.
    + rewrite Hu. reflexivity.
  - destruct (dynamic.Update _ _ _ _) as [res dest] eqn:Hupdate.
    rewrite Hu. cbn [fst snd].
    replace dest with
      (snd (dynamic.Update (DestDynamicClient (clients s)) gvr
              (GetNamespace resource) resource))
      by (rewrite Hupdate; reflexivity).
    apply received_after_Update.
Qed.

Lemma addFunc_logs (s : Service) (u : Unstructured) :
  addFunc s (UnstructuredPtr u) =
  let '(r, s', logged) := createResourceOnDestinationCluster s u in
  (completion_of r, s', logged ++ add_log r).
Proof.
  unfold addFunc.
  destruct (createResourceOnDestinationCluster s u) as [[[ok|err|msg] s'] l];
    cbn; rewrite ?app_nil_r; reflexivity.
Qed.

Lemma updateFunc_logs (s : Service) (old : interface) (u : Unstructured) :
  updateFunc s old (UnstructuredPtr u) =
  let '(r, s', logged) := updateResourceOnDestinationCluster s u in
  (completion_of r, s', logged ++ update_log r).
Proof.
  unfold updateFunc.
  destruct (updateResourceOnDestinationCluster s u) as [[[ok|err|msg] s'] l];
    cbn; rewrite ?app_nil_r; try reflexivity.
  destruct (errors.IsNotFound err); reflexivity.
Qed.

Lemma at_most_one_request_refl (s : Service) : at_most_one_request s s.
Proof. unfold at_most_one_request. tauto. Qed.

Lemma create_at_most_one_request (s : Service) (u : Unstructured) :
  at_most_one_request s
    (snd (fst (createResourceOnDestinationCluster s u))).
Proof.
  unfold createResourceOnDestinationCluster.
  destruct (findGVRForGVK s (GroupVersionKind u)) as [err|gvr];
    [apply at_most_one_request_refl|].
  destruct (run_filtering s gvr u Add) as [l [ok err]].
  destruct (negb ok || non_nil err); [apply at_most_one_request_refl|].
  destruct (run_mutating s gvr (removeUnnecessaryMetadata u) Add)
    as [final|err'|msg]; try apply at_most_one_request_refl.
  pose proof (received_after_Create s gvr (GetNamespace u) final) as Hr.
  destruct (dynamic.Create _ _ _ _) as [[e|c] dest]; cbn [fst snd] in *;
    (split; [right; eexists; exact Hr | repeat split]).
Qed.

Lemma update_at_most_one_request (s : Service) (u : Unstructured) :
  at_most_one_request s
    (snd (fst (updateResourceOnDestinationCluster s u))).
Proof.
  unfold updateResourceOnDestinationCluster.
  destruct (findGVRForGVK s (GroupVersionKind u)) as [err|gvr];
    [apply at_most_one_request_refl|].
  destruct (run_filtering s gvr u Update) as [l [ok err]].
  destruct (negb ok || non_nil err); [apply at_most_one_request_refl|].
  destruct (run_mutating s gvr u Update)
    as [final|err'|msg]; try apply at_most_one_request_refl.
  pose proof (received_after_Update s gvr (GetNamespace u) final) as Hr.
  destruct (dynamic.Update _ _ _ _) as [[e|c] dest]; cbn [fst snd] in *;
    (split; [right; eexists; exact Hr | repeat split]).
Qed.

Lemma deleteFunc_logs (s : Service) (u : Unstructured) :
  deleteFunc s (UnstructuredPtr u) =
  let '(r, s', logged) := deleteResourceOnDestinationCluster s u in
  (completion_of r, s', logged ++ delete_log r).
Proof.
  unfold deleteFunc.
  destruct (deleteResourceOnDestinationCluster s u) as [[[ok|err|msg] s'] l];
    cbn; rewrite ?app_nil_r; try reflexivity.
  destruct (errors.IsNotFound err); reflexivity.
Qed.

Lemma received_after_Delete (s : Service) (gvr : GVR) (ns name : string) :
  received
    (with_DestDynamicClient s
       (snd (dynamic.Delete (DestDynamicClient (clients s)) gvr ns name)))
  = received s ++ [DeleteAction gvr ns name].
Proof.
  unfold received. cbn.
  destruct (dynamic.Delete (Recording.client _) _ _ _). reflexivity.
Qed.

Lemma delete_at_most_one_request (s : Service) (u : Unstructured) :
  at_most_one_request s
    (snd (fst (deleteResourceOnDestinationCluster s u))).
Proof.
  unfold deleteResourceOnDestinationCluster.
  destruct (findGVRForGVK s (GroupVersionKind u)) as [err|gvr];
    [apply at_most_one_request_refl|].
  pose proof (received_after_Delete s gvr (GetNamespace u) (GetName u))
    as Hr.
  destruct (dynamic.Delete _ _ _ _) as [[e|] dest]; cbn [fst snd] in *;
    (split; [right; eexists; exact Hr | repeat split]).
Qed.

(** The outcome of the delete path stage by stage. *)
Lemma delete_outcome (s : Service) (u : Unstructured) :
  let r := fst (fst (deleteResourceOnDestinationCluster s u)) in
  match findGVRForGVK s (GroupVersionKind u) with
  | inl err => r = Err err
  | inr gvr =>
      match fst (dynamic.Delete (DestDynamicClient (clients s)) gvr
                   (GetNamespace u) (GetName u)) with
      | Some err => r = Err (Errorf "failed to delete resource" err)
      | None => r = Ok tt
      end
  end.
Proof.
  unfold deleteResourceOnDestinationCluster.
  destruct (findGVRForGVK s (GroupVersionKind u)) as [err|gvr];
    [reflexivity|].
  destruct (dynamic.Delete _ _ _ _) as [[err|] dest]; reflexivity.
Qed.

(** The outcome of the create path stage by stage. *)
Lemma create_outcome (s : Service) (u : Unstructured) :
  let r := fst (fst (createResourceOnDestinationCluster s u)) in
  match findGVRForGVK s (GroupVersionKind u) with
  | inl err => r = Err err
  | inr gvr =>
      match run_filtering s gvr u Add with
      | (_, (_, Some err)) => r = Err err
      | (_, (false, None)) => r = Ok tt
      | (_, (true, None)) =>
          match run_mutating s gvr (removeUnnecessaryMetadata u) Add with
          | Panic msg => r = Panic msg
          | Err err => r = Err (Errorf "failed to mutate resource" err)
          | Ok final =>
              match fst (dynamic.Create (DestDynamicClient (clients s)) gvr
                           (GetNamespace u) final) with
              | inl err => r = Err (Errorf "failed to create resource" err)
              | inr _ => r = Ok tt
              end
          end
      end
  end.
Proof.
  unfold createResourceOnDestinationCluster.
  destruct (findGVRForGVK s (GroupVersionKind u)) as [err|gvr];
    [reflexivity|].
  destruct (run_filtering s gvr u Add) as [l [[|] [err|]]]; try reflexivity.
  cbn [negb orb non_nil].
  destruct (run_mutating _ _ _ _) as [final|err|msg]; try reflexivity.
  destruct (dynamic.Create _ _ _ _) as [[err|c] dest]; reflexivity.
Qed.

(** The outcome of the update path stage by stage. *)
Lemma update_outcome (s : Service) (u : Unstructured) :
  let r := fst (fst (updateResourceOnDestinationCluster s u)) in
  match findGVRForGVK s (GroupVersionKind u) with
  | inl err => r = Err err
  | inr gvr =>
      match run_filtering s gvr u Update with
      | (_, (_, Some err)) => r = Err err
      | (_, (false, None)) => r = Ok tt
      | (_, (true, None)) =>
          match run_mutating s gvr u Update with
          | Panic msg => r = Panic msg
          | Err err => r = Err (Errorf "failed to mutate resource" err)
          | Ok final =>
              match fst (dynamic.Update (DestDynamicClient (clients s)) gvr
                           (GetNamespace u) final) with
              | inl err => r = Err (Errorf "failed to create resource" err)
              | inr _ => r = Ok tt
              end
          end
      end
  end.
Proof.
  unfold updateResourceOnDestinationCluster.
  destruct (findGVRForGVK s (GroupVersionKind u)) as [err|gvr];
    [reflexivity|].
  destruct (run_filtering s gvr u Update) as [l [[|] [err|]]];
    try reflexivity.
  cbn [negb orb non_nil].
  destruct (run_mutating _ _ _ _) as [final|err|msg]; try reflexivity.
  destruct (dynamic.Update _ _ _ _) as [[err|c] dest]; reflexivity.
Qed.

(** An error that wraps an API status keeps its reason. *)
Lemma IsNotFound_Errorf (message : string) (err : error) :
  errors.IsNotFound (Errorf message err) = errors.IsNotFound err.
Proof. reflexivity. Qed.

Lemma IsAlreadyExists_Errorf (message : string) (err : error) :
  errors.IsAlreadyExists (Errorf message err) = errors.IsAlreadyExists err.
Proof. reflexivity. Qed.

(** C7 (as amended).  For every Add, Update and Delete the Syncer
    handles: an error from kind resolution, from the filtering or the
    mutating function, or from the destination write ends the path with
    that error (wrapped for the last two); the handler then writes one
    log entry and returns, the destination has received at most one
    request, and nothing is kept for a retry.  On the Update and the
    Delete path the entry is an informational "skipped" entry when the
    error is, or wraps, a "not found" status, as for a "not found" of
    the destination write, and an error entry otherwise.  On the Create
    path the entry is an error entry for every error, an "already
    exists" of the destination write included. *)
Theorem C7_errors_logged_and_event_dropped
  (s : Service) (old : interface) (u : Unstructured) :
  let '(ra, sa, la) := createResourceOnDestinationCluster s u in
  let '(ru, su, lu) := updateResourceOnDestinationCluster s u in
  let '(rd, sd, ld) := deleteResourceOnDestinationCluster s u in
  addFunc s (UnstructuredPtr u) = (completion_of ra, sa, la ++ add_log ra)
  /\ updateFunc s old (UnstructuredPtr u) =
     (completion_of ru, su, lu ++ update_log ru)
  /\ deleteFunc s (UnstructuredPtr u) =
     (completion_of rd, sd, ld ++ delete_log rd)
  /\ at_most_one_request s sa
  /\ at_most_one_request s su
  /\ at_most_one_request s sd
  /\ match ra with
     | Err err =>
         add_log ra =
         [klog.ErrorS err "Failed to create resource on destination cluster"]
         /\ Forall (fun e => klog.is_error e = true) (add_log ra)
     | _ => add_log ra = []
     end
  /\ match ru with
     | Err err =>
         Forall (fun e => klog.is_error e = negb (errors.IsNotFound err))
                (update_log ru)
         /\ length (update_log ru) = 1
     | _ => update_log ru = []
     end
  /\ match rd with
     | Err err =>
         Forall (fun e => klog.is_error e = negb (errors.IsNotFound err))
                (delete_log rd)
         /\ length (delete_log rd) = 1
     | _ => delete_log rd = []
     end
  /\ match findGVRForGVK s (GroupVersionKind u) with
     | inl err => ra = Err err /\ ru = Err err /\ rd = Err err
     | inr gvr =>
         match run_filtering s gvr u Add with
         | (_, (_, Some err)) => ra = Err err
         | (_, (false, None)) => ra = Ok tt
         | (_, (true, None)) =>
             match run_mutating s gvr (removeUnnecessaryMetadata u) Add with
             | Panic msg => ra = Panic msg
             | Err err => ra = Err (Errorf "failed to mutate resource" err)
             | Ok final =>
                 match fst (dynamic.Create (DestDynamicClient (clients s))
                              gvr (GetNamespace u) final) with
                 | inl err =>
                     ra = Err (Errorf "failed to create resource" err)
                 | inr _ => ra = Ok tt
                 end
             end
         end
         /\
         match run_filtering s gvr u Update with
         | (_, (_, Some err)) => ru = Err err
         | (_, (false, None)) => ru = Ok tt
         | (_, (true, None)) =>
             match run_mutating s gvr u Update with
             | Panic msg => ru = Panic msg
             | Err err => ru = Err (Errorf "failed to mutate resource" err)
             | Ok final =>
                 match fst (dynamic.Update (DestDynamicClient (clients s))
                              gvr (GetNamespace u) final) with
                 | inl err =>
                     ru = Err (Errorf "failed to create resource" err)
                 | inr _ => ru = Ok tt
                 end
             end
         end
         /\
         match fst (dynamic.Delete (DestDynamicClient (clients s)) gvr
                      (GetNamespace u) (GetName u)) with
         | Some err => rd = Err (Errorf "failed to delete resource" err)
         | None => rd = Ok tt
         end
     end.
Proof.
  pose proof (addFunc_logs s u) as Ha.
  pose proof (updateFunc_logs s old u) as Hu.
  pose proof (deleteFunc_logs s u) as Hd.
  pose proof (create_at_most_one_request s u) as Hca.
  pose proof (update_at_most_one_request s u) as Hcu.
  pose proof (delete_at_most_one_request s u) as Hcd.
  pose proof (create_outcome s u) as Hoa.
  pose proof (update_outcome s u) as Hou.
  pose proof (delete_outcome s u) as Hod.
  destruct (createResourceOnDestinationCluster s u) as [[ra sa] la].
  destruct (updateResourceOnDestinationCluster s u) as [[ru su] lu].
  destruct (deleteResourceOnDestinationCluster s u) as [[rd sd] ld].
  cbn [fst snd] in *.
  split; [exact Ha|]. split; [exact Hu|]. split; [exact Hd|].
  split; [exact Hca|]. split; [exact Hcu|]. split; [exact Hcd|].
  split; [|split; [|split]].
  - destruct ra as [[]|err|msg]; try reflexivity.
    split; [reflexivity|]. repeat constructor.
  - destruct ru as [[]|err|msg]; try reflexivity. cbn.
    destruct (errors.IsNotFound err); split; repeat constructor.
  - destruct rd as [[]|err|msg]; try reflexivity. cbn.
    destruct (errors.IsNotFound err); split; repeat constructor.
  - destruct (findGVRForGVK s (GroupVersionKind u)) as [err|gvr];
      repeat split; assumption.
Qed.

(** What an informer hands over that is no Unstructured is logged and
    dropped by each handler, without a request to the destination. *)
Lemma handlers_drop_other_values (s : Service) (old : interface)
  (description : string) :
  addFunc s (OtherValue description) = (Returned, s, [conversion_failed])
  /\ updateFunc s old (OtherValue description)
     = (Returned, s, [conversion_failed])
  /\ deleteFunc s (OtherValue description)
     = (Returned, s, [conversion_failed]).
Proof. repeat split. Qed.

(** The delete path reads nothing of the Service but its clients. *)
Lemma delete_ignores_functions (s : Service) (u : Unstructured)
  (mutating : gmap GVR MutatingFunction)
  (filtering : gmap GVR FilteringFunction) :
  deleteFunc (with_functions s mutating filtering) (UnstructuredPtr u) =
  let '(c, s', l) := deleteFunc s (UnstructuredPtr u) in
  (c, with_functions s' mutating filtering, l).
Proof.
  unfold deleteFunc, deleteResourceOnDestinationCluster, findGVRForGVK.
  cbn [with_functions clients RestMapper DestDynamicClient].
  destruct (meta.RESTMapping _ _ _) as [err|gvr].
  - destruct (errors.IsNotFound err); reflexivity.
  - destruct (dynamic.Delete _ _ _ _) as [[err|] dest]; cbn.
    + destruct (errors.IsNotFound _); reflexivity.
    + reflexivity.
Qed.

(** C8 (as amended).  For every Delete of an Unstructured object whose
    kind resolves, whatever filtering and mutating functions are
    registered: the destination receives exactly one Delete, for the
    resolved resource and the namespace and name of the observed object,
    and the handler ends the same way with any other functions
    registered, so none of them is invoked. *)
Theorem C8_delete_bypasses_pipeline
  (s : Service) (u : Unstructured) (gvr : GVR) :
  findGVRForGVK s (GroupVersionKind u) = inr gvr ->
  let '(c, s', l) := deleteFunc s (UnstructuredPtr u) in
  received s' =
  received s ++ [DeleteAction gvr (GetNamespace u) (GetName u)]
  /\ forall mutating filtering,
       deleteFunc (with_functions s mutating filtering) (UnstructuredPtr u)
       = (c, with_functions s' mutating filtering, l).
Proof.
  intros Hgvr.
  pose proof (delete_ignores_functions s u) as Hind.
  destruct (deleteFunc s (UnstructuredPtr u)) as [[c s'] l] eqn:Hdel.
  split; [|exact Hind].
  revert Hdel.
  unfold deleteFunc, deleteResourceOnDestinationCluster.
  rewrite Hgvr.
  unfold received at 2.
  destruct (DestDynamicClient (clients s)) as [inner acts] eqn:Hdest.
  cbn [dynamic.Delete Recording_Interface Recording.client
       Recording.actions].
  destruct (dynamic.Delete inner gvr (GetNamespace u) (GetName u))
    as [[err|] dest].
  - destruct (errors.IsNotFound _); intros [= <- <- <-]; reflexivity.
  - intros [= <- <- <-]. reflexivity.
Qed.

(** C4.  filterPods lets every Add pass, whatever the pod holds; for an
    Update of an object that decodes to a pod it answers by the
    placement field alone: the pod passes when spec.nodeName is empty
    and is filtered out, without error, when it is not.  With filterPods
    registered for pods, the Update of a pod that carries a node name
    ends in updateFunc without a request to the destination, without a
    change of the Service and without an error entry in the log. *)
Theorem C4_scheduled_pod_update_filtered
  (s : Service) (old : interface) (u : Unstructured) (pod : v1.Pod.t) :
  filteringFunctions s !! pods = Some filterPods ->
  findGVRForGVK s (GroupVersionKind u) = inr pods ->
  FromUnstructured_Pod (UnstructuredContent u) = inr pod ->
  (forall (r : Unstructured) (c : @Clients S (Recording.t D)),
      filterPods r c Add = ([], (true, None)))
  /\ run_filtering s pods u Add = ([], (true, None))
  /\ snd (filterPods u (clients s) Update) =
     (String.eqb (v1.PodSpec.NodeName (v1.Pod.Spec pod)) "", None)
  /\ if String.eqb (v1.PodSpec.NodeName (v1.Pod.Spec pod)) ""
     then run_filtering s pods u Update = ([], (true, None))
     else
       let '(c, s', l) := updateFunc s old (UnstructuredPtr u) in
       c = Returned /\ s' = s /\ received s' = received s
       /\ Forall (fun e => klog.is_error e = false) l.
Proof.
  intros Hreg Hgvr Hpod.
  split; [reflexivity|].
  split; [unfold run_filtering; rewrite Hreg; reflexivity|].
  assert (Hf : filterPods u (clients s) Update =
               if negb (String.eqb (v1.PodSpec.NodeName (v1.Pod.Spec pod)) "")
               then
                 ([klog.InfoS
                     "Pod is scheduled. We ignore Pods already scheduled"
                     [("pod", v1.ObjectMeta.Name (v1.Pod.ObjectMeta pod));
                      ("namespace",
                       v1.ObjectMeta.Namespace (v1.Pod.ObjectMeta pod))]],
                  (false, None))
               else ([], (true, None))).
  { unfold filterPods. cbn [Event_eqb negb]. rewrite Hpod. reflexivity. }
  split.
  - rewrite Hf.
    destruct (String.eqb (v1.PodSpec.NodeName (v1.Pod.Spec pod)) "");
      reflexivity.
  - destruct (String.eqb (v1.PodSpec.NodeName (v1.Pod.Spec pod)) "")
      eqn:Hnode.
    + unfold run_filtering. rewrite Hreg, Hf. reflexivity.
    + unfold updateFunc, updateResourceOnDestinationCluster.
      rewrite Hgvr. unfold run_filtering. rewrite Hreg, Hf.
      cbn. repeat split. repeat constructor.
Qed.

(** A volume that is not in the Bound phase goes through mutatePV with
    its claim reference as decoded. *)
Lemma mutatePV_not_bound (r : Unstructured) (c : @Clients S D) (ev : Event)
  (pv : v1.PersistentVolume.t) :
  FromUnstructured_PersistentVolume (UnstructuredContent r) = inr pv ->
  v1.PersistentVolumeStatus.Phase (v1.PersistentVolume.Status pv)
    <> v1.VolumeBound ->
  mutatePV r c ev = encode_pv pv.
Proof.
  intros Hpv Hphase. unfold mutatePV. rewrite Hpv.
  apply String.eqb_neq in Hphase. rewrite Hphase. reflexivity.
Qed.

(** For a Bound volume with a claim reference, mutatePV looks the claim
    up through the source client and copies the UID found there; the
    destination client plays no part. *)
Lemma mutatePV_bound_reads_source (r : Unstructured) (c : @Clients S D)
  (ev : Event) (pv : v1.PersistentVolume.t) (claimRef : v1.ObjectReference.t)
  (pvc : Unstructured) :
  FromUnstructured_PersistentVolume (UnstructuredContent r) = inr pv ->
  v1.PersistentVolumeStatus.Phase (v1.PersistentVolume.Status pv)
    = v1.VolumeBound ->
  v1.PersistentVolumeSpec.ClaimRef (v1.PersistentVolume.Spec pv)
    = Some claimRef ->
  dynamic.Get (SrcDynamicClient c) persistentvolumeclaims
    (v1.ObjectReference.Namespace claimRef)
    (v1.ObjectReference.Name claimRef) = inr pvc ->
  (forall dest : D,
      mutatePV r (mkClients (SrcDynamicClient c) dest (RestMapper c)) ev =
      encode_pv
        (v1.PersistentVolume.mk
           (v1.PersistentVolume.ObjectMeta pv)
           (v1.PersistentVolumeSpec.mk
              (Some (v1.ObjectReference.with_UID (GetUID pvc) claimRef))
              (v1.PersistentVolumeSpec.Remainder
                 (v1.PersistentVolume.Spec pv)))
           (v1.PersistentVolume.Status pv)
           (v1.PersistentVolume.Remainder pv))).
Proof.
  intros Hpv Hphase Href Hget dest. unfold mutatePV. rewrite Hpv, Hphase.
  rewrite String.eqb_refl. unfold mutatePV_bound.
  cbn [SrcDynamicClient]. rewrite Href, Hget. reflexivity.
Qed.

(** C9.  For an object that decodes to a PersistentVolume, mutatePV
    panics with a nil pointer dereference exactly when the volume is in
    the Bound phase and has no claim reference: returning from mutatePV
    for a Bound volume presupposes a claim reference. *)
Theorem C9_bound_pv_without_claim_ref_panics
  (r : Unstructured) (c : @Clients S D) (ev : Event)
  (pv : v1.PersistentVolume.t) :
  FromUnstructured_PersistentVolume (UnstructuredContent r) = inr pv ->
  ((exists msg, mutatePV r c ev = Panic msg) <->
   v1.PersistentVolumeStatus.Phase (v1.PersistentVolume.Status pv)
     = v1.VolumeBound
   /\ v1.PersistentVolumeSpec.ClaimRef (v1.PersistentVolume.Spec pv) = None)
  /\ (v1.PersistentVolumeStatus.Phase (v1.PersistentVolume.Status pv)
        = v1.VolumeBound ->
      v1.PersistentVolumeSpec.ClaimRef (v1.PersistentVolume.Spec pv) = None ->
      mutatePV r c ev = Panic nil_pointer_dereference).
Proof.
  intros Hpv. unfold mutatePV. rewrite Hpv. split.
  - split.
    + intros [msg Hpanic].
      destruct (String.eqb _ v1.VolumeBound) eqn:Hphase.
      * apply String.eqb_eq in Hphase. split; [exact Hphase|].
        unfold mutatePV_bound in Hpanic.
        destruct (v1.PersistentVolumeSpec.ClaimRef _) as [claimRef|];
          [|reflexivity].
        destruct (dynamic.Get _ _ _ _) as [err|pvc]; [discriminate|].
        cbn in Hpanic.
        destruct (ToUnstructured_PersistentVolume _) as [m [e|]];
          discriminate.
      * cbn in Hpanic.
        destruct (ToUnstructured_PersistentVolume pv) as [m [e|]];
          discriminate.
    + intros [Hphase Href]. rewrite Hphase, String.eqb_refl.
      unfold mutatePV_bound. rewrite Href. eexists. reflexivity.
  - intros Hphase Href. rewrite Hphase, String.eqb_refl.
    unfold mutatePV_bound. rewrite Href. reflexivity.
Qed.

(** The package variables as declared. *)
Lemma MandatoryMutatingFunctions_pods :
  (MandatoryMutatingFunctions : gmap GVR (@MutatingFunction S D)) !! pods
  = Some mutatePods.
Proof.
  unfold MandatoryMutatingFunctions.
  rewrite lookup_insert_ne by discriminate. apply lookup_insert_eq.
Qed.

Lemma MandatoryMutatingFunctions_persistentvolumes :
  (MandatoryMutatingFunctions : gmap GVR (@MutatingFunction S D))
    !! persistentvolumes = Some mutatePV.
Proof. apply lookup_insert_eq. Qed.

Lemma MandatoryMutatingFunctions_other (gvr : GVR) :
  gvr <> pods -> gvr <> persistentvolumes ->
  (MandatoryMutatingFunctions : gmap GVR (@MutatingFunction S D)) !! gvr
  = None.
Proof.
  intros Hpods Hpv. unfold MandatoryMutatingFunctions.
  rewrite !lookup_insert_ne by congruence. apply lookup_empty.
Qed.

Lemma MandatoryFilteringFunctions_pods :
  (MandatoryFilteringFunctions : gmap GVR (@FilteringFunction S D)) !! pods
  = Some filterPods.
Proof. apply lookup_insert_eq. Qed.

Lemma MandatoryFilteringFunctions_other (gvr : GVR) :
  gvr <> pods ->
  (MandatoryFilteringFunctions : gmap GVR (@FilteringFunction S D)) !! gvr
  = None.
Proof.
  intros Hpods. unfold MandatoryFilteringFunctions.
  rewrite lookup_insert_ne by congruence. apply lookup_empty.
Qed.

(** Without caller-supplied functions New registers the mandatory ones. *)
Lemma New_without_options (src : S) (dest : D)
  (restMapper : meta.RESTMapper) (gvrs : option (list GVR)) (gvr : GVR) :
  let s := fst (New src dest restMapper (mkOptions gvrs ∅ ∅)
                  initialPackageVars) in
  mutatingFunctions s !! gvr = MandatoryMutatingFunctions !! gvr
  /\ filteringFunctions s !! gvr = MandatoryFilteringFunctions !! gvr.
Proof.
  cbn [fst New mutatingFunctions filteringFunctions
       AdditionalMutatingFunctions AdditionalFilteringFunctions
       varMandatoryMutatingFunctions varMandatoryFilteringFunctions
       initialPackageVars].
  split; rewrite lookup_assign_all, lookup_empty; reflexivity.
Qed.

(** New leaves the maps it built in the package variables too. *)
Lemma New_writes_package_vars (src : S) (dest : D)
  (restMapper : meta.RESTMapper) (options : Options) (pkg : PackageVars) :
  let '(s, pkg') := New src dest restMapper options pkg in
  varMandatoryMutatingFunctions pkg' = mutatingFunctions s
  /\ varMandatoryFilteringFunctions pkg' = filteringFunctions s.
Proof. split; reflexivity. Qed.

(** What New registers, for any contents of the package-level maps:
    the caller's function where there is one, and otherwise the entry
    the package map holds when New is called. *)
Lemma New_registry
  (src : S) (dest : D) (restMapper : meta.RESTMapper) (options : Options)
  (pkg : PackageVars) (gvr : GVR) (r : Unstructured) (ev : Event) :
  let s := fst (New src dest restMapper options pkg) in
  mutatingFunctions s !! gvr =
    match AdditionalMutatingFunctions options !! gvr with
    | Some additional => Some additional
    | None => varMandatoryMutatingFunctions pkg !! gvr
    end
  /\ filteringFunctions s !! gvr =
    match AdditionalFilteringFunctions options !! gvr with
    | Some additional => Some additional
    | None => varMandatoryFilteringFunctions pkg !! gvr
    end
  /\ run_mutating s gvr r ev =
    match AdditionalMutatingFunctions options !! gvr with
    | Some additional => additional r (clients s) ev
    | None =>
        match varMandatoryMutatingFunctions pkg !! gvr with
        | Some mandatory => mandatory r (clients s) ev
        | None => Ok r
        end
    end
  /\ run_filtering s gvr r ev =
    match AdditionalFilteringFunctions options !! gvr with
    | Some additional => additional r (clients s) ev
    | None =>
        match varMandatoryFilteringFunctions pkg !! gvr with
        | Some mandatory => mandatory r (clients s) ev
        | None => ([], (true, None))
        end
    end.
Proof.
  intros s.
  assert (Hm : mutatingFunctions s !! gvr =
               match AdditionalMutatingFunctions options !! gvr with
               | Some additional => Some additional
               | None => varMandatoryMutatingFunctions pkg !! gvr
               end) by apply lookup_assign_all.
  assert (Hf : filteringFunctions s !! gvr =
               match AdditionalFilteringFunctions options !! gvr with
               | Some additional => Some additional
               | None => varMandatoryFilteringFunctions pkg !! gvr
               end) by apply lookup_assign_all.
  split; [exact Hm|]. split; [exact Hf|].
  unfold run_mutating, run_filtering.
  split.
  - match goal with
    | |- match ?x with _ => _ end = _ =>
        replace x with
          (match AdditionalMutatingFunctions options !! gvr with
           | Some additional => Some additional
           | None => varMandatoryMutatingFunctions pkg !! gvr
           end) by (symmetry; exact Hm)
    end.
    destruct (AdditionalMutatingFunctions options !! gvr); reflexivity.
  - match goal with
    | |- match ?x with _ => _ end = _ =>
        replace x with
          (match AdditionalFilteringFunctions options !! gvr with
           | Some additional => Some additional
           | None => varMandatoryFilteringFunctions pkg !! gvr
           end) by (symmetry; exact Hf)
    end.
    destruct (AdditionalFilteringFunctions options !! gvr); reflexivity.
Qed.

(** C6 (as amended).  The Service constructed by New holds one function
    per kind.  Where the caller supplied a function for a kind, it takes
    the place of the entry of the package-level map, the mandatory one
    included, which then runs only if the caller's function calls it:
    the mutating step and the filtering step of the Service call the
    caller's function alone.  For the kinds the caller supplied nothing
    for, the Service runs the entry the package-level map holds when New
    is called: that is the mandatory function when the maps are as
    declared, and whatever an earlier New wrote into the map
    otherwise, since New stores its result in the package-level map: a
    later New holds the function of the earlier Service wherever its own
    caller supplied nothing. *)
Theorem C6_caller_function_replaces_mandatory
  (src : S) (dest : D) (restMapper : meta.RESTMapper) (options : Options)
  (later : Options) (pkg : PackageVars) (gvr : GVR) (r : Unstructured)
  (ev : Event) :
  let s := fst (New src dest restMapper options pkg) in
  let declared :=
    fst (New src dest restMapper options initialPackageVars) in
  let next :=
    fst (New src dest restMapper later
           (snd (New src dest restMapper options pkg))) in
  mutatingFunctions s !! gvr =
    match AdditionalMutatingFunctions options !! gvr with
    | Some additional => Some additional
    | None => varMandatoryMutatingFunctions pkg !! gvr
    end
  /\ filteringFunctions s !! gvr =
    match AdditionalFilteringFunctions options !! gvr with
    | Some additional => Some additional
    | None => varMandatoryFilteringFunctions pkg !! gvr
    end
  /\ run_mutating s gvr r ev =
    match AdditionalMutatingFunctions options !! gvr with
    | Some additional => additional r (clients s) ev
    | None =>
        match varMandatoryMutatingFunctions pkg !! gvr with
        | Some mandatory => mandatory r (clients s) ev
        | None => Ok r
        end
    end
  /\ run_filtering s gvr r ev =
    match AdditionalFilteringFunctions options !! gvr with
    | Some additional => additional r (clients s) ev
    | None =>
        match varMandatoryFilteringFunctions pkg !! gvr with
        | Some mandatory => mandatory r (clients s) ev
        | None => ([], (true, None))
        end
    end
  /\ mutatingFunctions declared !! gvr =
    match AdditionalMutatingFunctions options !! gvr with
    | Some additional => Some additional
    | None => MandatoryMutatingFunctions !! gvr
    end
  /\ filteringFunctions declared !! gvr =
    match AdditionalFilteringFunctions options !! gvr with
    | Some additional => Some additional
    | None => MandatoryFilteringFunctions !! gvr
    end
  /\ run_mutating declared gvr r ev =
    match AdditionalMutatingFunctions options !! gvr with
    | Some additional => additional r (clients declared) ev
    | None =>
        match MandatoryMutatingFunctions !! gvr with
        | Some mandatory => mandatory r (clients declared) ev
        | None => Ok r
        end
    end
  /\ run_filtering declared gvr r ev =
    match AdditionalFilteringFunctions options !! gvr with
    | Some additional => additional r (clients declared) ev
    | None =>
        match MandatoryFilteringFunctions !! gvr with
        | Some mandatory => mandatory r (clients declared) ev
        | None => ([], (true, None))
        end
    end
  /\ mutatingFunctions next !! gvr =
    match AdditionalMutatingFunctions later !! gvr with
    | Some additional => Some additional
    | None => mutatingFunctions s !! gvr
    end
  /\ filteringFunctions next !! gvr =
    match AdditionalFilteringFunctions later !! gvr with
    | Some additional => Some additional
    | None => filteringFunctions s !! gvr
    end.
Proof.
  intros s declared next.
  destruct (New_registry src dest restMapper options pkg gvr r ev)
    as (Hm & Hf & Hrm & Hrf).
  destruct (New_registry src dest restMapper options initialPackageVars
              gvr r ev) as (Hm0 & Hf0 & Hrm0 & Hrf0).
  destruct (New_registry src dest restMapper later
              (snd (New src dest restMapper options pkg)) gvr r ev)
    as (Hm1 & Hf1 & _ & _).
  repeat split; assumption.
Qed.

End Pipeline.

End syncer_facts.

(** ** The recorder *)

Module recorder_facts.
Import recorder journal_terms.

Section Journal.

Context `{!JSON}.

(** What encoding/json is relied on for: decoding gives back the
    records that were encoded. *)
Hypothesis Unmarshal_Marshal :
  forall records, Unmarshal (Marshal records) = Some records.

Lemma observe_app (s : Service) (fs : gmap string bytes)
  (events more : list (Event * Unstructured)) :
  observe s fs (events ++ more) =
  let '(s', fs') := observe s fs events in observe s' fs' more.
Proof.
  revert s fs. induction events as [|[e obj] events IH]; intros s fs.
  - reflexivity.
  - cbn [app observe].
    destruct (RecordEvent s fs obj e) as [s1 fs1]. apply IH.
Qed.

(** One event: the record is appended to the buffer and the file holds
    the encoding of the whole buffer. *)
Lemma RecordEvent_flushes (s : Service) (fs : gmap string bytes)
  (obj : Unstructured) (e : Event) :
  let '(s', fs') := RecordEvent s fs obj e in
  path s' = path s
  /\ records s' = records s ++ [JournalRecord.mk e obj]
  /\ fs' !! path s' = Some (Marshal (records s')).
Proof.
  unfold RecordEvent. cbn [path records].
  repeat split. apply lookup_insert_eq.
Qed.

(** Once the file holds the encoding of the buffer it keeps doing so,
    while the buffer grows by the observed events in order. *)
Lemma observe_keeps_flushed (events : list (Event * Unstructured)) :
  forall (s : Service) (fs : gmap string bytes),
  fs !! path s = Some (Marshal (records s)) ->
  let '(s', fs') := observe s fs events in
  path s' = path s
  /\ records s' = records s ++ as_records events
  /\ fs' !! path s' = Some (Marshal (records s')).
Proof.
  induction events as [|[e obj] events IH]; intros s fs Hflushed.
  - cbn. rewrite app_nil_r. repeat split. exact Hflushed.
  - cbn [observe].
    pose proof (RecordEvent_flushes s fs obj e) as Hone.
    destruct (RecordEvent s fs obj e) as [s1 fs1].
    destruct Hone as (Hp1 & Hr1 & Hf1).
    specialize (IH s1 fs1 Hf1).
    destruct (observe s1 fs1 events) as [s' fs'].
    destruct IH as (Hp & Hr & Hf).
    split; [congruence|]. split; [|exact Hf].
    rewrite Hr, Hr1, <- app_assoc. reflexivity.
Qed.

(** C2.  For every non-empty sequence of events a Recorder started on a
    path observes, the buffer and the Journal file read back both hold
    exactly the records of these events, one per event and in arrival
    order, each with the event's operation and the object as observed;
    this holds after every event, that is for every prefix of what is
    observed later. *)
Theorem C2_journal_reads_back_observed_events
  (journal : string) (fs : gmap string bytes)
  (events : list (Event * Unstructured)) :
  events <> [] ->
  let '(s', fs') := observe (New journal) fs events in
  records s' = as_records events
  /\ ReadJournal fs' journal = Some (as_records events)
  /\ forall more,
       let '(s'', fs'') := observe s' fs' more in
       ReadJournal fs'' journal = Some (as_records (events ++ more)).
Proof.
  intros Hne. destruct events as [|[e obj] events]; [congruence|].
  cbn [observe].
  pose proof (RecordEvent_flushes (New journal) fs obj e) as Hone.
  destruct (RecordEvent (New journal) fs obj e) as [s1 fs1].
  destruct Hone as (Hp1 & Hr1 & Hf1).
  pose proof (observe_keeps_flushed events s1 fs1 Hf1) as Hrest.
  destruct (observe s1 fs1 events) as [s' fs'].
  destruct Hrest as (Hp & Hr & Hf).
  assert (Hrecords : records s' = as_records ((e, obj) :: events)).
  { rewrite Hr, Hr1. reflexivity. }
  assert (Hpath : path s' = journal) by (rewrite Hp, Hp1; reflexivity).
  split; [exact Hrecords|]. split.
  - unfold ReadJournal. rewrite <- Hpath, Hf, Unmarshal_Marshal, Hrecords.
    reflexivity.
  - intros more.
    pose proof (observe_keeps_flushed more s' fs' Hf) as Hmore.
    destruct (observe s' fs' more) as [s'' fs''].
    destruct Hmore as (Hp' & Hr' & Hf').
    unfold ReadJournal. rewrite <- Hpath, <- Hp', Hf', Unmarshal_Marshal.
    rewrite Hr', Hrecords. unfold as_records. rewrite <- map_app.
    reflexivity.
Qed.

End Journal.

End recorder_facts.

(** ** The replayer *)

Module replayer_facts.
Import replayer journal_terms.

Section Replay.

Context {A : Type} `{!ResourceApplier A} `{!recorder.JSON}.

Lemma replayed_skip (record : recorder.JournalRecord.t)
  (records : list recorder.JournalRecord.t) (err : option error)
  (calls : list (Unstructured * option error)) :
  is_Add record = false ->
  replayed records err calls -> replayed (record :: records) err calls.
Proof.
  intros Hskip. unfold replayed, adds. cbn [List.filter].
  rewrite Hskip. tauto.
Qed.

Lemma replayed_step (record : recorder.JournalRecord.t)
  (records : list recorder.JournalRecord.t) (answer err : option error)
  (calls : list (Unstructured * option error)) :
  is_Add record = true ->
  benign answer ->
  replayed records err calls ->
  replayed (record :: records) err
    ((recorder.JournalRecord.Resource record, answer) :: calls).
Proof.
  intros Hadd Hbenign. unfold replayed, adds. cbn [List.filter].
  rewrite Hadd. cbn [map]. destruct err as [e|].
  - intros (before & obj & cause & rest & -> & Hb & Hc & -> & Hadds).
    exists ((recorder.JournalRecord.Resource record, answer) :: before),
      obj, cause, rest.
    repeat split; try assumption.
    + constructor; assumption.
    + cbn [map fst]. rewrite Hadds. reflexivity.
  - intros [Hmap Hall]. split.
    + cbn [fst]. rewrite Hmap. reflexivity.
    + constructor; assumption.
Qed.

Lemma replay_calls (records : list recorder.JournalRecord.t) :
  forall c : Calls.t A,
  let '(err, c') := replay c records in
  exists calls,
    Calls.created c' = Calls.created c ++ calls
    /\ replayed records err calls.
Proof.
  induction records as [|record records IH]; intros c.
  - cbn. exists []. rewrite app_nil_r. repeat split. constructor.
  - cbn [replay].
    destruct (recorder.JournalRecord.Event record) eqn:Hevent.
    + cbn [Create Calls_ResourceApplier].
      destruct (Create (Calls.applier c) (recorder.JournalRecord.Resource record))
        as [answer a'] eqn:Hcreate.
      assert (Hadd : is_Add record = true)
        by (unfold is_Add; rewrite Hevent; reflexivity).
      destruct answer as [cause|].
      * destruct (errors.IsAlreadyExists cause) eqn:Hexists.
        -- specialize (IH (Calls.mk a'
                             (Calls.created c ++
                              [(recorder.JournalRecord.Resource record,
                                Some cause)]))).
           destruct (replay _ records) as [err c'].
           destruct IH as (calls & Hcalls & Hreplayed).
           exists ((recorder.JournalRecord.Resource record, Some cause)
                   :: calls).
           split.
           ++ rewrite Hcalls. cbn [Calls.created].
              rewrite <- app_assoc. reflexivity.
           ++ apply replayed_step; assumption.
        -- exists [(recorder.JournalRecord.Resource record, Some cause)].
           split; [reflexivity|].
           exists [], (recorder.JournalRecord.Resource record), cause,
             (adds records).
           repeat split; try assumption; try constructor.
           unfold adds. cbn [List.filter]. rewrite Hadd. reflexivity.
      * specialize (IH (Calls.mk a'
                          (Calls.created c ++
                           [(recorder.JournalRecord.Resource record, None)]))).
        destruct (replay _ records) as [err c'].
        destruct IH as (calls & Hcalls & Hreplayed).
        exists ((recorder.JournalRecord.Resource record, None) :: calls).
        split.
        -- rewrite Hcalls. cbn [Calls.created].
           rewrite <- app_assoc. reflexivity.
        -- apply replayed_step; [assumption|exact I|assumption].
    + specialize (IH c). destruct (replay c records) as [err c'].
      destruct IH as (calls & Hcalls & Hreplayed).
      exists calls. split; [exact Hcalls|].
      apply replayed_skip; [|assumption].
      unfold is_Add. rewrite Hevent. reflexivity.
    + specialize (IH c). destruct (replay c records) as [err c'].
      destruct IH as (calls & Hcalls & Hreplayed).
      exists calls. split; [exact Hcalls|].
      apply replayed_skip; [|assumption].
      unfold is_Add. rewrite Hevent. reflexivity.
Qed.

(** C3.  For every journal the Replayer reads, Replay hands the objects
    of the Add records to the applier's Create in file order.  An
    answer "already exists" counts as success and the replay goes on
    with the next record; any other error ends the replay at that call,
    so that no later record is handed on, and comes back to the caller
    inside the returned error.  Without such an error every Add record
    is handed on and Replay returns no error. *)
Theorem C3_replay_creates_adds_in_file_order
  (s : @Service (Calls.t A)) (fs : gmap string recorder.bytes)
  (records : list recorder.JournalRecord.t) :
  recorder.ReadJournal fs (path s) = Some records ->
  let '(err, s') := Replay s fs in
  path s' = path s
  /\ exists calls,
       Calls.created (applier s') = Calls.created (applier s) ++ calls
       /\ replayed records err calls.
Proof.
  unfold recorder.ReadJournal, Replay. intros Hread.
  destruct (fs !! path s) as [contents|]; [|discriminate].
  rewrite Hread.
  pose proof (replay_calls records (applier s)) as Hcalls.
  destruct (replay (applier s) records) as [err a'].
  split; [reflexivity|exact Hcalls].
Qed.

End Replay.

End replayer_facts.

(** ** The code on concrete inputs *)

Module examples.
Import unstructured syncer terms fixtures.

#[local] Existing Instance fixtures.converter.

(** Settle the registry lookup a hypothesis branches on. *)
Ltac registered H E :=
  match type of H with
  | context [match ?x with _ => _ end] =>
      match type of E with
      | _ = ?rhs =>
          let Hx := fresh "Hx" in
          assert (Hx : x = rhs) by exact E;
          rewrite Hx in H; clear Hx
      end
  end.

(** Add of pod-1 with the functions as declared: the pod reaches Create
    without UID, generation and resourceVersion, and with the default
    service account. *)
Lemma C1_metadata_removed_before_mutating_witness :
  let s := service ∅ ∅ no_options in
  findGVRForGVK s (GroupVersionKind pod_1) = inr pods
  /\ run_filtering s pods pod_1 Add = ([], (true, None))
  /\ exists final,
       received (snd (fst (createResourceOnDestinationCluster s pod_1)))
       = [CreateAction pods "default" final]
       /\ identity_cleared final
       /\ getNestedString (Object final) ["spec"; "serviceAccountName"]
          = "default".
Proof.
  intros s.
  assert (Hgvr : findGVRForGVK s (GroupVersionKind pod_1) = inr pods)
    by (vm_compute; reflexivity).
  assert (Hfilter : run_filtering s pods pod_1 Add = ([], (true, None)))
    by (vm_compute; reflexivity).
  split; [exact Hgvr|]. split; [exact Hfilter|].
  destruct (syncer_facts.C1_metadata_removed_before_mutating
              s pod_1 pods [] Hgvr Hfilter) as [_ Hcreate].
  assert (Hreg : mutatingFunctions s !! pods = Some mutatePods).
  { destruct (syncer_facts.New_without_options
                (∅ : ObjectTracker.t) (recording ∅) mapper None pods)
      as [Hm _].
    etransitivity; [exact Hm|].
    apply syncer_facts.MandatoryMutatingFunctions_pods. }
  registered Hcreate Hreg.
  eexists. split; [|split].
  - vm_compute in Hcreate. exact Hcreate.
  - vm_compute. repeat split.
  - vm_compute. reflexivity.
Defined.

(** C1 (as stated) fails.  A caller registers, for namespaces, a
    mutating function that reads the namespace from the source store and
    puts the UID found there on the resource.  The Add of the namespace
    "default" passes the filtering step, has its metadata removed, and
    then reaches Create carrying the UID the source had assigned. *)
Lemma C1_counterexample :
  findGVRForGVK restoring_service (GroupVersionKind namespace_default)
  = inr namespaces
  /\ run_filtering restoring_service namespaces namespace_default Add
     = ([], (true, None))
  /\ GetUID namespace_default = "uid-src-ns"
  /\ exists obj,
       received
         (snd (fst (createResourceOnDestinationCluster restoring_service
                      namespace_default)))
       = [CreateAction namespaces "" obj]
       /\ GetUID obj = "uid-src-ns"
       /\ ~ identity_cleared obj.
Proof.
  split; [vm_compute; reflexivity|].
  split; [vm_compute; reflexivity|].
  split; [vm_compute; reflexivity|].
  exists (SetUID (removeUnnecessaryMetadata namespace_default) "uid-src-ns").
  split; [vm_compute; reflexivity|].
  split; [vm_compute; reflexivity|].
  intros [Huid _]. vm_compute in Huid. discriminate.
Qed.

(** No function is registered for namespaces as declared. *)
Lemma no_mutating_function_for_namespaces (dest : ObjectTracker.t) :
  mutatingFunctions (default_service dest) !! namespaces = None.
Proof.
  destruct (syncer_facts.New_without_options
              (∅ : ObjectTracker.t) (recording dest) mapper None namespaces)
    as [Hm _].
  etransitivity; [exact Hm|].
  apply syncer_facts.MandatoryMutatingFunctions_other; discriminate.
Qed.

Lemma filterPods_registered (dest : ObjectTracker.t) :
  filteringFunctions (default_service dest) !! pods = Some filterPods.
Proof.
  destruct (syncer_facts.New_without_options
              (∅ : ObjectTracker.t) (recording dest) mapper None pods)
    as [_ Hf].
  etransitivity; [exact Hf|].
  apply syncer_facts.MandatoryFilteringFunctions_pods.
Qed.

(** Update of the namespace "default": Update receives the namespace as
    observed, with the UID and the resourceVersion of the source. *)
Lemma C10_update_keeps_metadata_witness :
  let s := default_service (store namespaces [namespace_default]) in
  findGVRForGVK s (GroupVersionKind namespace_default) = inr namespaces
  /\ run_filtering s namespaces namespace_default Update
     = ([], (true, None))
  /\ received
       (snd (fst (updateResourceOnDestinationCluster s namespace_default)))
     = [UpdateAction namespaces "" namespace_default]
  /\ GetUID namespace_default = "uid-src-ns"
  /\ GetResourceVersion namespace_default = "7".
Proof.
  intros s. subst s.
  set (s := default_service (store namespaces [namespace_default])).
  assert (Hgvr : findGVRForGVK s (GroupVersionKind namespace_default)
                 = inr namespaces) by (vm_compute; reflexivity).
  assert (Hfilter : run_filtering s namespaces namespace_default Update
                    = ([], (true, None))) by (vm_compute; reflexivity).
  split; [exact Hgvr|]. split; [exact Hfilter|].
  pose proof (syncer_facts.C10_update_keeps_metadata
                s namespace_default namespaces [] Hgvr Hfilter) as Hupdate.
  subst s.
  cbv zeta in Hupdate.
  registered Hupdate
    (no_mutating_function_for_namespaces
       (store namespaces [namespace_default])).
  split; [exact Hupdate|].
  split; vm_compute; reflexivity.
Defined.

(** Delete of pod-1: the destination receives the Delete of pod-1 in
    "default", also with other functions registered. *)
Lemma C8_delete_bypasses_pipeline_witness :
  let s := default_service (store pods [pod_1]) in
  findGVRForGVK s (GroupVersionKind pod_1) = inr pods
  /\ received (snd (fst (deleteFunc s (UnstructuredPtr pod_1))))
     = [DeleteAction pods "default" "pod-1"].
Proof.
  intros s. subst s.
  set (s := default_service (store pods [pod_1])).
  assert (Hgvr : findGVRForGVK s (GroupVersionKind pod_1) = inr pods)
    by (vm_compute; reflexivity).
  split; [exact Hgvr|].
  pose proof (syncer_facts.C8_delete_bypasses_pipeline s pod_1 pods Hgvr)
    as Hdelete.
  destruct (deleteFunc s (UnstructuredPtr pod_1)) as [[c s'] l].
  destruct Hdelete as [Hreceived _].
  cbn [fst snd]. rewrite Hreceived. vm_compute. reflexivity.
Defined.

(** C8 (as stated) fails.  The REST mapper does not know the kind
    Widget: the Delete of widget-1 ends with the resolution error in the
    log and the destination receives no Delete. *)
Lemma C8_counterexample :
  let s := default_service (store pods [pod_1]) in
  deleteFunc s (UnstructuredPtr widget_1) =
  (Returned, s,
   [klog.ErrorS
      (NoKindMatchError (schema.GroupKind.mk "" "Widget") "v1")
      "Failed to delete resource on destination cluster"])
  /\ received (snd (fst (deleteFunc s (UnstructuredPtr widget_1)))) = [].
Proof.
  intros s. subst s.
  set (s := default_service (store pods [pod_1])).
  assert (Hgvr : findGVRForGVK s (GroupVersionKind widget_1)
                 = inl (NoKindMatchError
                          (schema.GroupKind.mk "" "Widget") "v1"))
    by (vm_compute; reflexivity).
  unfold deleteFunc, deleteResourceOnDestinationCluster.
  rewrite Hgvr. cbn. split; reflexivity.
Qed.

(** Update of pod-1 after it got a node name: filterPods answers false
    and the destination, which holds pod-1 as created, receives
    nothing. *)
Lemma C4_scheduled_pod_update_filtered_witness :
  let s := default_service (store pods [pod_1]) in
  filteringFunctions s !! pods = Some filterPods
  /\ findGVRForGVK s (GroupVersionKind pod_1_scheduled) = inr pods
  /\ (exists pod,
        FromUnstructured_Pod (UnstructuredContent pod_1_scheduled) = inr pod
        /\ v1.PodSpec.NodeName (v1.Pod.Spec pod) = "node-1")
  /\ snd (filterPods pod_1_scheduled (clients s) Update) = (false, None)
  /\ snd (fst (updateFunc s (UnstructuredPtr pod_1)
                 (UnstructuredPtr pod_1_scheduled))) = s.
Proof.
  intros s. subst s.
  pose proof (filterPods_registered (store pods [pod_1])) as Hreg.
  set (s := default_service (store pods [pod_1])) in *.
  assert (Hgvr : findGVRForGVK s (GroupVersionKind pod_1_scheduled)
                 = inr pods) by (vm_compute; reflexivity).
  destruct (FromUnstructured_Pod (UnstructuredContent pod_1_scheduled))
    as [err|pod] eqn:Hpod; [vm_compute in Hpod; discriminate|].
  assert (Hnode : v1.PodSpec.NodeName (v1.Pod.Spec pod) = "node-1").
  { vm_compute in Hpod. injection Hpod as <-. reflexivity. }
  split; [exact Hreg|]. split; [exact Hgvr|].
  split; [exists pod; split; [reflexivity|exact Hnode]|].
  destruct (syncer_facts.C4_scheduled_pod_update_filtered
              s (UnstructuredPtr pod_1) pod_1_scheduled pod Hreg Hgvr Hpod)
    as (_ & _ & Hanswer & Hupdate).
  rewrite Hnode in Hanswer, Hupdate. cbn [String.eqb Ascii.eqb] in *.
  split; [exact Hanswer|].
  destruct (updateFunc s (UnstructuredPtr pod_1)
              (UnstructuredPtr pod_1_scheduled)) as [[c s'] l].
  destruct Hupdate as (_ & Hsame & _). exact Hsame.
Defined.

(** A Bound volume without a claim reference: mutatePV panics, and the
    panic escapes from addFunc before anything reaches the destination. *)
Lemma C9_bound_pv_without_claim_ref_panics_witness :
  let s := default_service ∅ in
  (exists pv,
     FromUnstructured_PersistentVolume
       (UnstructuredContent pv_bound_without_claim) = inr pv
     /\ v1.PersistentVolumeStatus.Phase (v1.PersistentVolume.Status pv)
        = v1.VolumeBound
     /\ v1.PersistentVolumeSpec.ClaimRef (v1.PersistentVolume.Spec pv)
        = None)
  /\ mutatePV pv_bound_without_claim (clients s) Add
     = Panic nil_pointer_dereference
  /\ fst (fst (addFunc s (UnstructuredPtr pv_bound_without_claim)))
     = Panicked nil_pointer_dereference
  /\ received (snd (fst (addFunc s (UnstructuredPtr
                                     pv_bound_without_claim)))) = [].
Proof.
  intros s.
  destruct (FromUnstructured_PersistentVolume
              (UnstructuredContent pv_bound_without_claim))
    as [err|pv] eqn:Hpv; [vm_compute in Hpv; discriminate|].
  assert (Hphase :
            v1.PersistentVolumeStatus.Phase (v1.PersistentVolume.Status pv)
            = v1.VolumeBound)
    by (vm_compute in Hpv; injection Hpv as <-; reflexivity).
  assert (Href :
            v1.PersistentVolumeSpec.ClaimRef (v1.PersistentVolume.Spec pv)
            = None)
    by (vm_compute in Hpv; injection Hpv as <-; reflexivity).
  split; [exists pv; repeat split; assumption|].
  destruct (syncer_facts.C9_bound_pv_without_claim_ref_panics
              pv_bound_without_claim (clients s) Add pv Hpv) as [_ Hpanic].
  split; [exact (Hpanic Hphase Href)|].
  split; vm_compute; reflexivity.
Defined.

(** C5 on a concrete input.  The claim pvc-1 has the UID "uid-src-pvc"
    on the source and "uid-dest-pvc" on the destination.  For the volume
    bound to it, mutatePV returns, and the create path writes to the
    destination, a claim reference with the UID of the source; a volume
    whose reference held another UID comes out with the UID of the
    source as well. *)
Theorem C5_mutatePV_copies_the_source_side_uid :
  let s := claim_service in
  match dynamic.Get (SrcDynamicClient (clients s))
          persistentvolumeclaims "default" "pvc-1" with
  | inr pvc => GetUID pvc = "uid-src-pvc"
  | inl _ => False
  end
  /\ match dynamic.Get (DestDynamicClient (clients s))
             persistentvolumeclaims "default" "pvc-1" with
     | inr pvc => GetUID pvc = "uid-dest-pvc"
     | inl _ => False
     end
  /\ match mutatePV (pv_bound "uid-src-pvc") (clients s) Add with
     | Ok obj => claim_uid obj = "uid-src-pvc"
     | _ => False
     end
  /\ match mutatePV (pv_bound "uid-stale") (clients s) Add with
     | Ok obj => claim_uid obj = "uid-src-pvc"
     | _ => False
     end
  /\ match received
             (snd (fst (addFunc s (UnstructuredPtr
                                     (pv_bound "uid-src-pvc"))))) with
     | [CreateAction gvr ns obj] =>
         gvr = persistentvolumes /\ claim_uid obj = "uid-src-pvc"
     | _ => False
     end.
Proof.
  intros s.
  split; [vm_compute; reflexivity|].
  split; [vm_compute; reflexivity|].
  split; [vm_compute; reflexivity|].
  split; [vm_compute; reflexivity|].
  vm_compute. split; reflexivity.
Qed.

(** C6 (as stated) fails.  The caller registers, for pods, a mutating
    function and a filtering function that leave everything as it is.
    On an Add the mutating step returns pod-1 without the default
    service account that mutatePods followed by the caller's function
    would give; on the Update of the scheduled pod-1 the filtering step
    passes although filterPods answers false, and the Update reaches the
    destination. *)
Lemma C6_counterexample :
  let s := overriding_service in
  run_mutating s pods pod_1 Add = Ok pod_1
  /\ service_account pod_1 = ""
  /\ match mutatePods pod_1 (clients s) Add with
     | Ok mandated =>
         match keep mandated (clients s) Add with
         | Ok final => service_account final = "default"
         | _ => False
         end
     | _ => False
     end
  /\ run_filtering s pods pod_1_scheduled Update = ([], (true, None))
  /\ snd (filterPods pod_1_scheduled (clients s) Update) = (false, None)
  /\ received (snd (fst (updateFunc s (UnstructuredPtr pod_1)
                           (UnstructuredPtr pod_1_scheduled))))
     = [UpdateAction pods "default" pod_1_scheduled].
Proof.
  intros s. repeat split; vm_compute; reflexivity.
Qed.

(** C7 (as stated) fails.  The destination already holds pod-1: Create
    answers "already exists", and addFunc writes that error to the log
    at error severity like any other. *)
Lemma C7_counterexample :
  let s := default_service (store pods [pod_1]) in
  let err :=
    Errorf "failed to create resource" (errors.NewAlreadyExists "pod-1") in
  snd (addFunc s (UnstructuredPtr pod_1))
  = [klog.ErrorS err "Failed to create resource on destination cluster"]
  /\ errors.IsAlreadyExists err = true
  /\ klog.is_error
       (klog.ErrorS err "Failed to create resource on destination cluster")
     = true.
Proof.
  intros s err. repeat split; vm_compute; reflexivity.
Qed.

(** The benign half of C7: the destination does not hold the namespace
    "default", Update answers "not found", and updateFunc writes an
    informational entry. *)
Lemma update_of_missing_object_is_skipped :
  let s := default_service ∅ in
  let err :=
    Errorf "failed to create resource" (errors.NewNotFound "default") in
  snd (updateFunc s (UnstructuredPtr namespace_default)
         (UnstructuredPtr namespace_default))
  = [klog.Info "Skipped to update resource on destination: " (Some err)]
  /\ Forall (fun e => klog.is_error e = false)
       (snd (updateFunc s (UnstructuredPtr namespace_default)
               (UnstructuredPtr namespace_default))).
Proof.
  intros s err. split; [vm_compute; reflexivity|].
  vm_compute. repeat constructor.
Qed.

(** A Recorder on record.json observes the Add, the Update and the
    Delete of pod-1: the file read back holds these three records. *)
Lemma C2_journal_reads_back_observed_events_witness :
  (forall records,
      @recorder.Unmarshal journal_fixtures.plain_json
        (@recorder.Marshal journal_fixtures.plain_json records)
      = Some records)
  /\ journal_fixtures.observed_events <> []
  /\ @recorder.ReadJournal journal_fixtures.plain_json
       (snd (@recorder.observe journal_fixtures.plain_json
               (recorder.New "record.json") ∅
               journal_fixtures.observed_events))
       "record.json"
     = Some
         [recorder.JournalRecord.mk recorder.Add pod_1;
          recorder.JournalRecord.mk recorder.Update pod_1_scheduled;
          recorder.JournalRecord.mk recorder.Delete pod_1_scheduled].
Proof.
  assert (Hlaw : forall records,
             @recorder.Unmarshal journal_fixtures.plain_json
               (@recorder.Marshal journal_fixtures.plain_json records)
             = Some records) by reflexivity.
  assert (Hne : journal_fixtures.observed_events <> []) by discriminate.
  split; [exact Hlaw|]. split; [exact Hne|].
  pose proof (@recorder_facts.C2_journal_reads_back_observed_events
                journal_fixtures.plain_json Hlaw "record.json" ∅
                journal_fixtures.observed_events Hne) as Hread.
  destruct (@recorder.observe journal_fixtures.plain_json
              (recorder.New "record.json") ∅
              journal_fixtures.observed_events) as [s' fs'].
  destruct Hread as (_ & Hread & _). exact Hread.
Defined.

(** Replay of a journal with two Add records around an Update, against
    an applier that answers "already exists" for pod-1: Replay returns
    no error and Create was called for pod-1 and then for pod-2. *)
Lemma C3_replay_creates_adds_in_file_order_witness :
  let s :=
    journal_fixtures.replayer_over
      [Some (errors.NewAlreadyExists "pod-1"); None] in
  @recorder.ReadJournal journal_fixtures.plain_json
    journal_fixtures.journal_file (replayer.path s)
  = Some journal_fixtures.journal
  /\ fst (@replayer.Replay _ _ journal_fixtures.plain_json s
            journal_fixtures.journal_file) = None
  /\ map fst
       (replayer.Calls.created
          (replayer.applier
             (snd (@replayer.Replay _ _ journal_fixtures.plain_json s
                     journal_fixtures.journal_file))))
     = [pod_1; pod_2].
Proof.
  intros s.
  assert (Hread : @recorder.ReadJournal journal_fixtures.plain_json
                    journal_fixtures.journal_file (replayer.path s)
                  = Some journal_fixtures.journal) by reflexivity.
  split; [exact Hread|].
  pose proof (@replayer_facts.C3_replay_creates_adds_in_file_order
                _ _ journal_fixtures.plain_json s
                journal_fixtures.journal_file journal_fixtures.journal
                Hread) as Hreplay.
  assert (Herr : fst (@replayer.Replay _ _ journal_fixtures.plain_json s
                        journal_fixtures.journal_file) = None)
    by (vm_compute; reflexivity).
  split; [exact Herr|].
  destruct (@replayer.Replay _ _ journal_fixtures.plain_json s
              journal_fixtures.journal_file) as [err s'].
  cbn [fst snd] in *. subst err.
  destruct Hreplay as (_ & calls & Hcalls & Hadds & _).
  rewrite Hcalls. cbn [app replayer.Calls.created replayer.applier].
  exact Hadds.
Defined.

(** The three cases of TestService_Replay, for the one Add record of
    pod-1: no error when Create is successful, an error when Create
    raises one, no error when the error is "already exists". *)
Lemma replay_as_tested :
  let fs : gmap string (list recorder.JournalRecord.t) :=
    {["record.json" := [recorder.JournalRecord.mk recorder.Add pod_1]]} in
  let failure := ErrorString "failed to create resource" in
  fst (@replayer.Replay _ _ journal_fixtures.plain_json
         (journal_fixtures.replayer_over [None]) fs) = None
  /\ fst (@replayer.Replay _ _ journal_fixtures.plain_json
            (journal_fixtures.replayer_over [Some failure]) fs)
     = Some (Errorf "failed to replay event" failure)
  /\ fst (@replayer.Replay _ _ journal_fixtures.plain_json
            (journal_fixtures.replayer_over
               [Some (errors.NewAlreadyExists "resource already exists")])
            fs) = None.
Proof.
  intros fs failure. repeat split; vm_compute; reflexivity.
Qed.

End examples.

(** ** Further properties of the syncer *)

Module syncer_more.
Import unstructured syncer informer terms more_terms.

(** The content after the removal, by what "metadata" holds. *)
Lemma removal_content (u : Unstructured) :
  Object (removeUnnecessaryMetadata u) =
  match Object u !! "metadata" with
  | None =>
      <["metadata" :=
          VMap (<["resourceVersion" := VString ""]>
                  (<["uid" := VString ""]> ∅))]> (Object u)
  | Some (VMap m) =>
      <["metadata" :=
          VMap (<["resourceVersion" := VString ""]>
                  (delete "generation" (<["uid" := VString ""]> m)))]>
        (Object u)
  | Some _ => Object u
  end.
Proof.
  unfold removeUnnecessaryMetadata, SetUID, SetGeneration,
    SetResourceVersion, setNestedField.
  cbn [SetNestedField RemoveNestedField Object Z.eqb].
  destruct (Object u !! "metadata") as [[]|] eqn:E; cbn;
    rewrite ?E; simplify_map_eq; try reflexivity.
  - rewrite !insert_insert_eq. reflexivity.
  - rewrite !insert_insert_eq. rewrite delete_insert_ne by discriminate.
    rewrite delete_empty. reflexivity.
Qed.

Lemma cleared_metadata_fixed (m : gmap string value) :
  let m' := <["resourceVersion" := VString ""]>
              (delete "generation" (<["uid" := VString ""]> m)) in
  <["resourceVersion" := VString ""]>
    (delete "generation" (<["uid" := VString ""]> m')) = m'.
Proof.
  intros m'. subst m'. apply map_eq. intros k.
  destruct (decide (k = "resourceVersion")) as [->|Hrv];
    [rewrite !lookup_insert_eq; reflexivity|].
  rewrite !(lookup_insert_ne _ "resourceVersion") by congruence.
  destruct (decide (k = "generation")) as [->|Hgen];
    [rewrite !lookup_delete_eq; reflexivity|].
  rewrite !(lookup_delete_ne _ "generation") by congruence.
  destruct (decide (k = "uid")) as [->|Huid];
    [rewrite !lookup_insert_eq; reflexivity|].
  rewrite !(lookup_insert_ne _ "uid") by congruence.
  rewrite (lookup_insert_ne _ "resourceVersion") by congruence.
  rewrite (lookup_delete_ne _ "generation") by congruence.
  rewrite (lookup_insert_ne _ "uid") by congruence.
  reflexivity.
Qed.

(** X1.  removeUnnecessaryMetadata is idempotent and touches nothing
    but the three metadata fields: every top-level field other than
    "metadata" and every field of the metadata other than uid,
    generation and resourceVersion reads as before, and so do the
    group, version and kind, the namespace and the name. *)
Theorem X1_removal_is_idempotent_and_local (u : Unstructured) :
  removeUnnecessaryMetadata (removeUnnecessaryMetadata u)
  = removeUnnecessaryMetadata u
  /\ delete "metadata" (Object (removeUnnecessaryMetadata u))
     = delete "metadata" (Object u)
  /\ (forall field,
        field = "uid" \/ field = "generation" \/ field = "resourceVersion"
        \/ NestedFieldNoCopy (Object (removeUnnecessaryMetadata u))
             ["metadata"; field]
           = NestedFieldNoCopy (Object u) ["metadata"; field])
  /\ GroupVersionKind (removeUnnecessaryMetadata u) = GroupVersionKind u
  /\ GetNamespace (removeUnnecessaryMetadata u) = GetNamespace u
  /\ GetName (removeUnnecessaryMetadata u) = GetName u.
Proof.
  assert (Hlocal : delete "metadata" (Object (removeUnnecessaryMetadata u))
                   = delete "metadata" (Object u)).
  { rewrite removal_content.
    destruct (Object u !! "metadata") as [[]|]; try reflexivity;
      apply delete_insert_eq. }
  assert (Htop : forall field, field <> "metadata" ->
             Object (removeUnnecessaryMetadata u) !! field
             = Object u !! field).
  { intros field Hne.
    rewrite <- (lookup_delete_ne (Object (removeUnnecessaryMetadata u))
                  "metadata" field) by congruence.
    rewrite Hlocal. apply lookup_delete_ne. congruence. }
  split; [|split; [exact Hlocal|split; [|split; [|split]]]].
  - destruct u as [obj].
    assert (Heq : forall a b : Unstructured, Object a = Object b -> a = b)
      by (intros [a] [b]; cbn; congruence).
    apply Heq. rewrite (removal_content (removeUnnecessaryMetadata _)).
    rewrite (removal_content (unstructured.mk obj)). cbn [Object].
    destruct (obj !! "metadata") as [[]|] eqn:E; rewrite ?lookup_insert_eq, ?E;
      try reflexivity.
    + rewrite insert_insert_eq. rewrite cleared_metadata_fixed. reflexivity.
    + rewrite insert_insert_eq.
      replace (<["resourceVersion" := VString ""]>
                 (delete "generation"
                    (<["uid" := VString ""]>
                       (<["resourceVersion" := VString ""]>
                          (<["uid" := VString ""]> (∅ : gmap string value))))))
        with (<["resourceVersion" := VString ""]>
                (<["uid" := VString ""]> (∅ : gmap string value)))
        by (vm_compute; reflexivity).
      reflexivity.
  - intros field.
    destruct (decide (field = "uid")) as [->|Huid]; [tauto|].
    destruct (decide (field = "generation")) as [->|Hgen]; [tauto|].
    destruct (decide (field = "resourceVersion")) as [->|Hrv]; [tauto|].
    right; right; right.
    cbn [NestedFieldNoCopy]. rewrite removal_content.
    destruct (Object u !! "metadata") as [[]|] eqn:E;
      rewrite ?lookup_insert_eq, ?E; try reflexivity.
    + rewrite lookup_insert_ne by congruence.
      rewrite lookup_delete_ne by congruence.
      rewrite lookup_insert_ne by congruence. reflexivity.
    + rewrite lookup_insert_ne by congruence.
      rewrite lookup_insert_ne by congruence.
      rewrite lookup_empty. reflexivity.
  - unfold GroupVersionKind, GetAPIVersion, GetKind, getNestedString.
    cbn [NestedFieldNoCopy].
    rewrite !Htop by discriminate. reflexivity.
  - apply unstructured_facts.removal_keeps_name.
  - apply unstructured_facts.removal_keeps_name.
Qed.

Section More.

Context {S D : Type}.
Context `{!dynamic.Interface S} `{!dynamic.Interface D}.
Context `{!UnstructuredConverter}.

Abbreviation Service := (@syncer.Service S (Recording.t D)).

(** X2.  mutatePods resets the service account and nothing else: for a
    resource that decodes to a pod whose changed form the converter
    encodes and reads back, the result is that encoding whatever the
    clients and the event are; it decodes to the pod with
    ServiceAccountName "default" and every other field as decoded; and
    mutatePods applied to its own result returns it unchanged. *)
Theorem X2_mutatePods_resets_service_account
  (r : Unstructured) (c : @Clients S D) (ev : Event) (pod : v1.Pod.t)
  (encoded : gmap string value) :
  FromUnstructured_Pod (UnstructuredContent r) = inr pod ->
  ToUnstructured_Pod (with_default_service_account pod) = (encoded, None) ->
  FromUnstructured_Pod encoded = inr (with_default_service_account pod) ->
  (forall (c' : @Clients S D) (ev' : Event),
      mutatePods r c' ev' = Ok (unstructured.mk encoded))
  /\ mutatePods (unstructured.mk encoded) c ev = Ok (unstructured.mk encoded)
  /\ exists written,
       FromUnstructured_Pod encoded = inr written
       /\ v1.PodSpec.ServiceAccountName (v1.Pod.Spec written) = "default"
       /\ v1.PodSpec.NodeName (v1.Pod.Spec written)
          = v1.PodSpec.NodeName (v1.Pod.Spec pod)
       /\ v1.PodSpec.Remainder (v1.Pod.Spec written)
          = v1.PodSpec.Remainder (v1.Pod.Spec pod)
       /\ v1.Pod.ObjectMeta written = v1.Pod.ObjectMeta pod
       /\ v1.Pod.Remainder written = v1.Pod.Remainder pod.
Proof.
  intros Hpod Hencode Hdecode. split; [|split].
  - intros c' ev'. unfold mutatePods. rewrite Hpod.
    fold (with_default_service_account pod). rewrite Hencode. reflexivity.
  - unfold mutatePods. cbn [UnstructuredContent Object]. rewrite Hdecode.
    fold (with_default_service_account (with_default_service_account pod)).
    replace (with_default_service_account (with_default_service_account pod))
      with (with_default_service_account pod) by reflexivity.
    rewrite Hencode. reflexivity.
  - exists (with_default_service_account pod). repeat split. exact Hdecode.
Qed.

(** X7.  An object that does not decode to a pod passes filterPods on
    an Add, for which nothing is decoded, and is rejected with the
    decoding error on an Update: with filterPods registered, updateFunc
    then sends nothing to the destination and writes the decoding error
    to the log. *)
Theorem X7_undecodable_pod_update_dropped
  (s : Service) (old : interface) (u : Unstructured) (gvr : GVR)
  (err : error) :
  filteringFunctions s !! gvr = Some filterPods ->
  findGVRForGVK s (GroupVersionKind u) = inr gvr ->
  FromUnstructured_Pod (UnstructuredContent u) = inl err ->
  run_filtering s gvr u Add = ([], (true, None))
  /\ run_filtering s gvr u Update = ([], (false, Some err))
  /\ updateFunc s old (UnstructuredPtr u)
     = (Returned, s, update_log (Err err)).
Proof.
  intros Hreg Hgvr Hpod.
  assert (Hf : run_filtering s gvr u Update = ([], (false, Some err))).
  { unfold run_filtering.
    match goal with |- match ?x with _ => _ end = _ =>
      replace x with (Some (@filterPods S (Recording.t D) _)) by (symmetry; exact Hreg) end.
    unfold filterPods. cbn [Event_eqb negb]. rewrite Hpod. reflexivity. }
  split; [|split; [exact Hf|]].
  - unfold run_filtering.
    match goal with |- match ?x with _ => _ end = _ =>
      replace x with (Some (@filterPods S (Recording.t D) _)) by (symmetry; exact Hreg) end.
    reflexivity.
  - unfold updateFunc, updateResourceOnDestinationCluster.
    rewrite Hgvr, Hf. cbn. destruct (errors.IsNotFound err); reflexivity.
Qed.

(** X3.  updateFunc does not tell where a "not found" comes from: when
    the mutating function fails on an Update with an error that is, or
    wraps, a "not found" status (as mutatePV does when the claim is
    missing on the source), updateFunc writes the informational
    "Skipped to update resource on destination" entry, although the
    destination was not asked anything, and the Service is left as it
    was. *)
Theorem X3_update_skips_on_not_found_from_mutating
  (s : Service) (old : interface) (u : Unstructured) (gvr : GVR)
  (logged : list klog.Entry) (err : error) :
  findGVRForGVK s (GroupVersionKind u) = inr gvr ->
  run_filtering s gvr u Update = (logged, (true, None)) ->
  run_mutating s gvr u Update = Err err ->
  errors.IsNotFound err = true ->
  updateFunc s old (UnstructuredPtr u)
  = (Returned, s,
     logged ++
     [klog.Info "Skipped to update resource on destination: "
        (Some (Errorf "failed to mutate resource" err))])
  /\ Forall (fun e => klog.is_error e = false)
       (update_log (Err (Errorf "failed to mutate resource" err))).
Proof.
  intros Hgvr Hfilter Hmutate Hnf.
  pose proof (syncer_facts.update_after_filter s u gvr logged Hgvr Hfilter)
    as Hu.
  rewrite Hmutate in Hu. split.
  - unfold updateFunc. rewrite Hu.
    rewrite syncer_facts.IsNotFound_Errorf, Hnf. reflexivity.
  - cbn [update_log]. rewrite syncer_facts.IsNotFound_Errorf, Hnf.
    repeat constructor.
Qed.

(** X4.  A Bound volume whose claim cannot be read from the source is
    not created: with mutatePV registered for its kind, when the Get of
    the referenced claim on the source fails, addFunc sends nothing to
    the destination, leaves the Service as it was and writes that error,
    wrapped as a failure to mutate, to the log at error severity. *)
Theorem X4_bound_volume_with_unreadable_claim_not_created
  (s : Service) (u : Unstructured) (gvr : GVR) (logged : list klog.Entry)
  (pv : v1.PersistentVolume.t) (claimRef : v1.ObjectReference.t)
  (err : error) :
  findGVRForGVK s (GroupVersionKind u) = inr gvr ->
  run_filtering s gvr u Add = (logged, (true, None)) ->
  mutatingFunctions s !! gvr = Some mutatePV ->
  FromUnstructured_PersistentVolume
    (UnstructuredContent (removeUnnecessaryMetadata u)) = inr pv ->
  v1.PersistentVolumeStatus.Phase (v1.PersistentVolume.Status pv)
    = v1.VolumeBound ->
  v1.PersistentVolumeSpec.ClaimRef (v1.PersistentVolume.Spec pv)
    = Some claimRef ->
  dynamic.Get (SrcDynamicClient (clients s)) persistentvolumeclaims
    (v1.ObjectReference.Namespace claimRef)
    (v1.ObjectReference.Name claimRef) = inl err ->
  addFunc s (UnstructuredPtr u)
  = (Returned, s,
     logged ++
     [klog.ErrorS (Errorf "failed to mutate resource" err)
        "Failed to create resource on destination cluster"]).
Proof.
  intros Hgvr Hfilter Hreg Hpv Hphase Href Hget.
  assert (Hmutate :
            run_mutating s gvr (removeUnnecessaryMetadata u) Add = Err err).
  { unfold run_mutating.
    match goal with
    | |- match ?x with _ => _ end = _ =>
        replace x with (Some (@mutatePV S (Recording.t D) _ _))
          by (symmetry; exact Hreg)
    end.
    unfold mutatePV. rewrite Hpv, Hphase, String.eqb_refl.
    unfold mutatePV_bound. rewrite Href, Hget. reflexivity. }
  pose proof (syncer_facts.create_after_filter s u gvr logged Hgvr Hfilter)
    as Hc.
  rewrite Hmutate in Hc. unfold addFunc. rewrite Hc. reflexivity.
Qed.

(** X8.  Where the claim reference of a Bound volume already holds the
    UID the claim has on the source, mutatePV changes nothing: it
    returns the encoding of the volume as decoded, the same as for a
    volume that is not Bound. *)
Theorem X8_mutatePV_keeps_volume_of_consistent_source
  (r : Unstructured) (c : @Clients S D) (ev : Event)
  (pv : v1.PersistentVolume.t) (claimRef : v1.ObjectReference.t)
  (pvc : Unstructured) :
  FromUnstructured_PersistentVolume (UnstructuredContent r) = inr pv ->
  v1.PersistentVolumeStatus.Phase (v1.PersistentVolume.Status pv)
    = v1.VolumeBound ->
  v1.PersistentVolumeSpec.ClaimRef (v1.PersistentVolume.Spec pv)
    = Some claimRef ->
  dynamic.Get (SrcDynamicClient c) persistentvolumeclaims
    (v1.ObjectReference.Namespace claimRef)
    (v1.ObjectReference.Name claimRef) = inr pvc ->
  GetUID pvc = v1.ObjectReference.UID claimRef ->
  mutatePV r c ev = encode_pv pv.
Proof.
  intros Hpv Hphase Href Hget Huid.
  unfold mutatePV. rewrite Hpv, Hphase, String.eqb_refl.
  unfold mutatePV_bound. rewrite Href, Hget, Huid.
  destruct pv as [meta [ref rest] status other]. cbn in *.
  subst ref. destruct claimRef as [ns name uid refrest]. reflexivity.
Qed.

Lemma kept_refl (s : Service) : kept s s.
Proof. repeat split. Qed.

Lemma kept_trans (s1 s2 s3 : Service) : kept s1 s2 -> kept s2 s3 -> kept s1 s3.
Proof.
  unfold kept. intros (A1 & A2 & A3 & A4 & A5) (B1 & B2 & B3 & B4 & B5).
  repeat split; congruence.
Qed.

Lemma create_asks (s : Service) (u : Unstructured) :
  let s' := snd (fst (createResourceOnDestinationCluster s u)) in
  kept s s' /\ asked_at_most VerbCreate s s'.
Proof.
  unfold createResourceOnDestinationCluster.
  destruct (findGVRForGVK s (GroupVersionKind u)) as [err|gvr];
    [split; [apply kept_refl|left; reflexivity]|].
  destruct (run_filtering s gvr u Add) as [l [ok err]].
  destruct (negb ok || non_nil err);
    [split; [apply kept_refl|left; reflexivity]|].
  destruct (run_mutating s gvr (removeUnnecessaryMetadata u) Add)
    as [final|err'|msg];
    try (split; [apply kept_refl|left; reflexivity]).
  pose proof (syncer_facts.received_after_Create
                s gvr (GetNamespace u) final) as Hr.
  destruct (dynamic.Create _ _ _ _) as [[e|c] dest]; cbn [fst snd] in *;
    (split; [repeat split|right; eexists; split; [exact Hr|reflexivity]]).
Qed.

Lemma update_asks (s : Service) (u : Unstructured) :
  let s' := snd (fst (updateResourceOnDestinationCluster s u)) in
  kept s s' /\ asked_at_most VerbUpdate s s'.
Proof.
  unfold updateResourceOnDestinationCluster.
  destruct (findGVRForGVK s (GroupVersionKind u)) as [err|gvr];
    [split; [apply kept_refl|left; reflexivity]|].
  destruct (run_filtering s gvr u Update) as [l [ok err]].
  destruct (negb ok || non_nil err);
    [split; [apply kept_refl|left; reflexivity]|].
  destruct (run_mutating s gvr u Update) as [final|err'|msg];
    try (split; [apply kept_refl|left; reflexivity]).
  pose proof (syncer_facts.received_after_Update
                s gvr (GetNamespace u) final) as Hr.
  destruct (dynamic.Update _ _ _ _) as [[e|c] dest]; cbn [fst snd] in *;
    (split; [repeat split|right; eexists; split; [exact Hr|reflexivity]]).
Qed.

Lemma delete_asks (s : Service) (u : Unstructured) :
  let s' := snd (fst (deleteResourceOnDestinationCluster s u)) in
  kept s s' /\ asked_at_most VerbDelete s s'.
Proof.
  unfold deleteResourceOnDestinationCluster.
  destruct (findGVRForGVK s (GroupVersionKind u)) as [err|gvr];
    [split; [apply kept_refl|left; reflexivity]|].
  pose proof (syncer_facts.received_after_Delete
                s gvr (GetNamespace u) (GetName u)) as Hr.
  destruct (dynamic.Delete _ _ _ _) as [[e|] dest]; cbn [fst snd] in *;
    (split; [repeat split|right; eexists; split; [exact Hr|reflexivity]]).
Qed.

Lemma handle_asks (s : Service) (n : Notification) :
  let s' := snd (fst (handle s n)) in
  kept s s' /\ asked_at_most (verb_of_notification n) s s'.
Proof.
  destruct n as [[u|d]|old [u|d]|[u|d]]; cbn [handle verb_of_notification];
    try (split; [apply kept_refl|left; reflexivity]).
  - rewrite syncer_facts.addFunc_logs.
    pose proof (create_asks s u) as Hc.
    destruct (createResourceOnDestinationCluster s u) as [[r s'] l].
    exact Hc.
  - rewrite syncer_facts.updateFunc_logs.
    pose proof (update_asks s u) as Hc.
    destruct (updateResourceOnDestinationCluster s u) as [[r s'] l].
    exact Hc.
  - rewrite syncer_facts.deleteFunc_logs.
    pose proof (delete_asks s u) as Hc.
    destruct (deleteResourceOnDestinationCluster s u) as [[r s'] l].
    exact Hc.
Qed.

(** X6.  Whatever notifications an informer delivers, the handlers
    leave the source client, the REST mapper and the registered
    functions as they were, and the destination receives at most one
    request per notification, in the order of the notifications and
    each of the verb of its notification: a Create for an Add, an Update
    for an Update, a Delete for a Delete. *)
Theorem X6_one_request_per_notification
  (notifications : list Notification) :
  forall s : Service,
  let '(c, s', logged) := deliver s notifications in
  kept s s'
  /\ exists asked,
       received s' = received s ++ asked
       /\ sublist (map verb_of_action asked)
                  (map verb_of_notification notifications).
Proof.
  induction notifications as [|n rest IH]; intros s.
  - cbn. split; [apply kept_refl|]. exists []. rewrite app_nil_r.
    split; [reflexivity|constructor].
  - cbn [deliver].
    pose proof (handle_asks s n) as Hn.
    destruct (handle s n) as [[c s1] l1]. cbn [fst snd] in Hn.
    destruct Hn as [Hkept Hasked].
    destruct c as [|msg].
    + specialize (IH s1). destruct (deliver s1 rest) as [[c' s'] l'].
      destruct IH as [Hkept' (asked & Hreceived & Hsub)].
      split; [eapply kept_trans; eassumption|].
      destruct Hasked as [Hsame|(a & Hone & Hverb)].
      * exists asked. split; [rewrite Hreceived, Hsame; reflexivity|].
        cbn [map]. apply sublist_cons. exact Hsub.
      * exists (a :: asked). split.
        -- rewrite Hreceived, Hone, <- app_assoc. reflexivity.
        -- cbn [map]. rewrite Hverb. apply sublist_skip. exact Hsub.
    + split; [exact Hkept|].
      destruct Hasked as [Hsame|(a & Hone & Hverb)].
      * exists []. rewrite app_nil_r. split; [exact Hsame|].
        apply sublist_nil_l.
      * exists [a]. split; [exact Hone|].
        cbn [map]. rewrite Hverb. apply sublist_skip. apply sublist_nil_l.
Qed.

(** X5.  New writes the caller's functions into the package-level maps,
    where they stay: a Service built by a later New holds, for every
    kind, the function of the later caller if there is one, else the
    function of the earlier caller if there is one, else the function
    the package variable held before; so functions supplied to one New
    also run in a Service built later without them. *)
Theorem X5_New_keeps_functions_of_earlier_calls
  (src src' : S) (dest dest' : D) (restMapper restMapper' : meta.RESTMapper)
  (first later : @Options S D) (pkg : @PackageVars S D) (gvr : GVR) :
  let '(_, pkg1) := New src dest restMapper first pkg in
  let '(s, _) := New src' dest' restMapper' later pkg1 in
  mutatingFunctions s !! gvr =
    match AdditionalMutatingFunctions later !! gvr with
    | Some f => Some f
    | None =>
        match AdditionalMutatingFunctions first !! gvr with
        | Some f => Some f
        | None => varMandatoryMutatingFunctions pkg !! gvr
        end
    end
  /\ filteringFunctions s !! gvr =
    match AdditionalFilteringFunctions later !! gvr with
    | Some f => Some f
    | None =>
        match AdditionalFilteringFunctions first !! gvr with
        | Some f => Some f
        | None => varMandatoryFilteringFunctions pkg !! gvr
        end
    end.
Proof.
  cbn [New mutatingFunctions filteringFunctions
       varMandatoryMutatingFunctions varMandatoryFilteringFunctions].
  split; rewrite !syncer_facts.lookup_assign_all; reflexivity.
Qed.

End More.

End syncer_more.

(** ** Further runs on concrete inputs *)

Module more_examples.
Import unstructured syncer informer terms more_terms fixtures more_fixtures.

#[local] Existing Instance fixtures.converter.

(** mutatePods on pod-1: the result has the default service account,
    and mutatePods returns it unchanged when applied again. *)
Lemma X2_mutatePods_resets_service_account_witness :
  let c := clients (default_service ∅) in
  match mutatePods pod_1 c Add with
  | Ok obj =>
      service_account obj = "default"
      /\ mutatePods obj c Update = Ok obj
  | _ => False
  end.
Proof.
  intros c.
  set (pod := decoded_pod pod_1).
  set (encoded := fst (of_pod (with_default_service_account pod))).
  assert (Hpod : FromUnstructured_Pod (UnstructuredContent pod_1) = inr pod)
    by (vm_compute; reflexivity).
  assert (Hencode : ToUnstructured_Pod (with_default_service_account pod)
                    = (encoded, None)) by reflexivity.
  assert (Hdecode : FromUnstructured_Pod encoded
                    = inr (with_default_service_account pod))
    by (vm_compute; reflexivity).
  destruct (syncer_more.X2_mutatePods_resets_service_account
              pod_1 c Update pod encoded Hpod Hencode Hdecode)
    as (Hresult & Hagain & _).
  rewrite (Hresult c Add). split; [|exact Hagain].
  vm_compute. reflexivity.
Defined.

(** No claim on the source: the Update of the bound volume pv-1 fails
    in mutatePV with "not found", and updateFunc writes the "skipped"
    entry without a request to the destination. *)
Lemma X3_update_skips_on_not_found_from_mutating_witness :
  let s := default_service ∅ in
  let u := pv_bound "uid-src-pvc" in
  let err := errors.NewNotFound "pvc-1" in
  findGVRForGVK s (GroupVersionKind u) = inr persistentvolumes
  /\ run_filtering s persistentvolumes u Update = ([], (true, None))
  /\ run_mutating s persistentvolumes u Update = Err err
  /\ errors.IsNotFound err = true
  /\ snd (updateFunc s (UnstructuredPtr u) (UnstructuredPtr u))
     = [klog.Info "Skipped to update resource on destination: "
          (Some (Errorf "failed to mutate resource" err))]
  /\ received (snd (fst (updateFunc s (UnstructuredPtr u)
                           (UnstructuredPtr u)))) = [].
Proof.
  intros s u err.
  assert (Hgvr : findGVRForGVK s (GroupVersionKind u)
                 = inr persistentvolumes) by (vm_compute; reflexivity).
  assert (Hfilter : run_filtering s persistentvolumes u Update
                    = ([], (true, None))) by (vm_compute; reflexivity).
  assert (Hmutate : run_mutating s persistentvolumes u Update = Err err)
    by (vm_compute; reflexivity).
  assert (Hnf : errors.IsNotFound err = true) by reflexivity.
  repeat (split; [assumption|]).
  destruct (syncer_more.X3_update_skips_on_not_found_from_mutating
              s (UnstructuredPtr u) u persistentvolumes [] err
              Hgvr Hfilter Hmutate Hnf) as [Hupdate _].
  rewrite Hupdate. split; reflexivity.
Defined.

Lemma mutatePV_registered (dest : ObjectTracker.t) :
  mutatingFunctions (default_service dest) !! persistentvolumes
  = Some mutatePV.
Proof.
  destruct (syncer_facts.New_without_options
              (∅ : ObjectTracker.t) (recording dest) mapper None
              persistentvolumes) as [Hm _].
  etransitivity; [exact Hm|].
  apply syncer_facts.MandatoryMutatingFunctions_persistentvolumes.
Qed.

(** No claim on the source: the Add of the bound volume pv-1 ends with
    the "not found" of the claim in the log and nothing created. *)
Lemma X4_bound_volume_with_unreadable_claim_not_created_witness :
  let s := default_service ∅ in
  let u := pv_bound "uid-src-pvc" in
  let pv := decoded_pv (removeUnnecessaryMetadata u) in
  let err := errors.NewNotFound "pvc-1" in
  findGVRForGVK s (GroupVersionKind u) = inr persistentvolumes
  /\ run_filtering s persistentvolumes u Add = ([], (true, None))
  /\ FromUnstructured_PersistentVolume
       (UnstructuredContent (removeUnnecessaryMetadata u)) = inr pv
  /\ v1.PersistentVolumeStatus.Phase (v1.PersistentVolume.Status pv)
     = v1.VolumeBound
  /\ v1.PersistentVolumeSpec.ClaimRef (v1.PersistentVolume.Spec pv)
     = Some (decoded_claim_ref "uid-src-pvc")
  /\ dynamic.Get (SrcDynamicClient (clients s)) persistentvolumeclaims
       "default" "pvc-1" = inl err
  /\ snd (addFunc s (UnstructuredPtr u))
     = [klog.ErrorS (Errorf "failed to mutate resource" err)
          "Failed to create resource on destination cluster"]
  /\ received (snd (fst (addFunc s (UnstructuredPtr u)))) = [].
Proof.
  intros s u pv err.
  assert (Hgvr : findGVRForGVK s (GroupVersionKind u)
                 = inr persistentvolumes) by (vm_compute; reflexivity).
  assert (Hfilter : run_filtering s persistentvolumes u Add
                    = ([], (true, None))) by (vm_compute; reflexivity).
  assert (Hpv : FromUnstructured_PersistentVolume
                  (UnstructuredContent (removeUnnecessaryMetadata u))
                = inr pv) by (vm_compute; reflexivity).
  assert (Hphase :
            v1.PersistentVolumeStatus.Phase (v1.PersistentVolume.Status pv)
            = v1.VolumeBound) by (vm_compute; reflexivity).
  assert (Href :
            v1.PersistentVolumeSpec.ClaimRef (v1.PersistentVolume.Spec pv)
            = Some (decoded_claim_ref "uid-src-pvc"))
    by (vm_compute; reflexivity).
  assert (Hget : dynamic.Get (SrcDynamicClient (clients s))
                   persistentvolumeclaims "default" "pvc-1" = inl err)
    by (vm_compute; reflexivity).
  repeat (split; [assumption|]).
  rewrite (syncer_more.X4_bound_volume_with_unreadable_claim_not_created
             s u persistentvolumes [] pv (decoded_claim_ref "uid-src-pvc")
             err Hgvr Hfilter (mutatePV_registered ∅) Hpv Hphase Href Hget).
  split; reflexivity.
Defined.

(** The Update of an object of kind Pod with a string for a spec: the
    decoding error is logged and nothing is sent; on an Add the same
    object passes filterPods. *)
Lemma X7_undecodable_pod_update_dropped_witness :
  let s := default_service ∅ in
  filteringFunctions s !! pods = Some filterPods
  /\ findGVRForGVK s (GroupVersionKind pod_malformed) = inr pods
  /\ FromUnstructured_Pod (UnstructuredContent pod_malformed)
     = inl type_mismatch
  /\ run_filtering s pods pod_malformed Add = ([], (true, None))
  /\ snd (updateFunc s (UnstructuredPtr pod_malformed)
            (UnstructuredPtr pod_malformed))
     = [klog.ErrorS type_mismatch
          "Failed to update resource on destination cluster"]
  /\ received (snd (fst (updateFunc s (UnstructuredPtr pod_malformed)
                           (UnstructuredPtr pod_malformed)))) = [].
Proof.
  intros s.
  pose proof (examples.filterPods_registered ∅) as Hreg.
  assert (Hgvr : findGVRForGVK s (GroupVersionKind pod_malformed)
                 = inr pods) by (vm_compute; reflexivity).
  assert (Hpod : FromUnstructured_Pod (UnstructuredContent pod_malformed)
                 = inl type_mismatch) by (vm_compute; reflexivity).
  split; [exact Hreg|]. split; [exact Hgvr|]. split; [exact Hpod|].
  destruct (syncer_more.X7_undecodable_pod_update_dropped
              s (UnstructuredPtr pod_malformed) pod_malformed pods
              type_mismatch Hreg Hgvr Hpod) as (Hadd & _ & Hupdate).
  split; [exact Hadd|]. rewrite Hupdate. split; reflexivity.
Defined.

(** The volume pv-1 knows the claim by the UID the claim has on the
    source: mutatePV returns the volume as decoded. *)
Lemma X8_mutatePV_keeps_volume_of_consistent_source_witness :
  let c := clients claim_service in
  let r := pv_bound "uid-src-pvc" in
  FromUnstructured_PersistentVolume (UnstructuredContent r)
  = inr (decoded_pv r)
  /\ v1.PersistentVolumeStatus.Phase
       (v1.PersistentVolume.Status (decoded_pv r)) = v1.VolumeBound
  /\ v1.PersistentVolumeSpec.ClaimRef
       (v1.PersistentVolume.Spec (decoded_pv r))
     = Some (decoded_claim_ref "uid-src-pvc")
  /\ dynamic.Get (SrcDynamicClient c) persistentvolumeclaims
       "default" "pvc-1" = inr (claim "uid-src-pvc")
  /\ mutatePV r c Add = encode_pv (decoded_pv r).
Proof.
  intros c r.
  assert (Hpv : FromUnstructured_PersistentVolume (UnstructuredContent r)
                = inr (decoded_pv r)) by (vm_compute; reflexivity).
  assert (Hphase :
            v1.PersistentVolumeStatus.Phase
              (v1.PersistentVolume.Status (decoded_pv r))
            = v1.VolumeBound) by (vm_compute; reflexivity).
  assert (Href :
            v1.PersistentVolumeSpec.ClaimRef
              (v1.PersistentVolume.Spec (decoded_pv r))
            = Some (decoded_claim_ref "uid-src-pvc"))
    by (vm_compute; reflexivity).
  assert (Hget : dynamic.Get (SrcDynamicClient c) persistentvolumeclaims
                   "default" "pvc-1" = inr (claim "uid-src-pvc"))
    by (vm_compute; reflexivity).
  repeat (split; [assumption|]).
  apply (syncer_more.X8_mutatePV_keeps_volume_of_consistent_source
           r c Add (decoded_pv r) (decoded_claim_ref "uid-src-pvc")
           (claim "uid-src-pvc") Hpv Hphase Href Hget).
  vm_compute. reflexivity.
Defined.

End more_examples.
